(** * OmniArch smart-meeting front end: a shallow embedding

    The development embeds the React pages and helpers of the smart-meeting
    front end ([BookingPage.tsx], [TasksPage.tsx], the settings page, the
    [lib/utils] helpers and the Supabase row types) and checks the claims of
    the recommendation-and-booking specification against them.

    Conventions.
    - A JavaScript string is its sequence of UTF-16 code units ([jsstring]).
    - A JavaScript [number] is an IEEE 754 binary64 value, taken from the
      Standard Library's [spec_float], with its NaN and infinities.
    - A React component is a record of its [useState] cells; an event handler
      is a computation in the [Handler] monad, which threads the cells and
      logs the toasts and timers the handler asks for. *)

From Stdlib Require Import ZArith NArith Ascii String DecimalString.
From Stdlib Require Import DecimalN.
From Stdlib Require Import Floats.SpecFloat.
From stdpp Require Import base option list gmap.

Local Open Scope Z_scope.

(* ===================================================================== *)
(** ** JavaScript values *)
(* ===================================================================== *)

Module JS.

(** *** Strings *)

Definition codeunit := N.
Definition jsstring := list codeunit.

(** Decoding of a UTF-8 byte sequence (the encoding of the source files
    and of the literals below) into UTF-16 code units. *)
Definition cont (b : N) : N := N.land b 63.

Definition surrogates (cp : N) : list codeunit :=
  let v := (cp - 65536)%N in
  [ (55296 + N.shiftr v 10)%N ; (56320 + N.land v 1023)%N ].

Fixpoint decode (bs : list N) : jsstring :=
  match bs with
  | [] => []
  | b0 :: r0 =>
    if (b0 <? 128)%N then b0 :: decode r0
    else match r0 with
    | [] => [65533%N]
    | b1 :: r1 =>
      if (b0 <? 224)%N then
        (N.shiftl (N.land b0 31) 6 + cont b1)%N :: decode r1
      else match r1 with
      | [] => [65533%N]
      | b2 :: r2 =>
        if (b0 <? 240)%N then
          (N.shiftl (N.land b0 15) 12 + N.shiftl (cont b1) 6 + cont b2)%N
            :: decode r2
        else match r2 with
        | [] => [65533%N]
        | b3 :: r3 =>
          surrogates (N.shiftl (N.land b0 7) 18 + N.shiftl (cont b1) 12
                      + N.shiftl (cont b2) 6 + cont b3)%N ++ decode r3
        end
      end
    end
  end.

Definition utf16 (s : string) : jsstring :=
  decode (map N_of_ascii (list_ascii_of_string s)).

(** [WhiteSpace] and [LineTerminator] of ECMA-262, the code points that
    [String.prototype.trim] strips. *)
Definition isWhiteSpace (c : codeunit) : bool :=
  ((9 <=? c) && (c <=? 13)
   || (c =? 32) || (c =? 160) || (c =? 5760)
   || (8192 <=? c) && (c <=? 8202)
   || (c =? 8232) || (c =? 8233) || (c =? 8239) || (c =? 8287)
   || (c =? 12288) || (c =? 65279))%N.

Fixpoint trimStart (s : jsstring) : jsstring :=
  match s with
  | c :: r => if isWhiteSpace c then trimStart r else s
  | [] => []
  end.

Definition trimEnd (s : jsstring) : jsstring :=
  reverse (trimStart (reverse s)).

Definition trim (s : jsstring) : jsstring := trimEnd (trimStart s).

(** [ToBoolean] on a string: only the empty string is falsy. *)
Definition truthy (s : jsstring) : bool :=
  match s with [] => false | _ :: _ => true end.

(** *** Numbers *)

Definition number := spec_float.

Definition NaN : number := S754_nan.

(** The relational operators of ECMA-262 on numbers: every comparison
    with NaN is false. *)
Definition lt (a b : number) : bool := SFltb a b.
Definition le (a b : number) : bool := SFleb a b.
Definition gt (a b : number) : bool := SFltb b a.
Definition ge (a b : number) : bool := SFleb b a.

(** [Number.prototype.toString] on a non-negative integer below 10^21
    (what [Date.now()] returns): its decimal digits. *)
Definition toString (n : N) : jsstring :=
  utf16 (NilZero.string_of_uint (N.to_uint n)).

(** [String.prototype.startsWith], from position 0. *)
Fixpoint startsWith (s prefix : jsstring) : bool :=
  match prefix, s with
  | [], _ => true
  | p :: prefix', c :: s' => (c =? p)%N && startsWith s' prefix'
  | _ :: _, [] => false
  end.

End JS.

Import JS.

(** The numeric literals of the sources, as the binary64 values the
    JavaScript parser produces for them: the decimal fraction [m / k]
    rounded to the nearest binary64 value, ties to even. *)
Module Lit.
Definition decimal (m k : positive) : number :=
  SFdiv 53 1024 (S754_finite false m 0) (S754_finite false k 0).

Definition n0_0  : number := S754_zero false.
Definition n1_0  : number := Eval vm_compute in decimal 1 1.
Definition n0_7  : number := Eval vm_compute in decimal 7 10.
Definition n0_9  : number := Eval vm_compute in decimal 9 10.
Definition n0_92 : number := Eval vm_compute in decimal 92 100.
Definition n0_75 : number := Eval vm_compute in decimal 75 100.
Definition n0_88 : number := Eval vm_compute in decimal 88 100.
End Lit.

(* ===================================================================== *)
(** ** [lib/utils]: presentation helpers *)
(* ===================================================================== *)

Module Utils.

Definition getMatchScoreColor (score : number) : jsstring :=
  if ge score Lit.n0_9 then utf16 "bg-green-500"
  else if ge score Lit.n0_7 then utf16 "bg-yellow-500"
  else utf16 "bg-red-500".

(** The [switch] compares with [===]; the first three cases share one
    [return]. *)
Definition getStatusColor (status : jsstring) : jsstring :=
  if bool_decide (status = utf16 "available")
     || bool_decide (status = utf16 "confirmed")
     || bool_decide (status = utf16 "done") then
    utf16 "bg-green-100 text-green-800"
  else if bool_decide (status = utf16 "booked") then
    utf16 "bg-blue-100 text-blue-800"
  else if bool_decide (status = utf16 "draft") then
    utf16 "bg-gray-100 text-gray-800"
  else if bool_decide (status = utf16 "cancelled") then
    utf16 "bg-red-100 text-red-800"
  else
    utf16 "bg-gray-100 text-gray-800".

End Utils.

(* ===================================================================== *)
(** ** Supabase row types ([lib/supabase]) *)
(* ===================================================================== *)

(** The string-literal union types of the row interfaces.  A value of such
    a type is, at run time, one of the listed strings: each union is an
    enumeration with its rendering as a string. *)
Module Supabase.

Module MeetingRoom.
Inductive Status := available | booked.

Definition status_string (st : Status) : jsstring :=
  match st with
  | available => utf16 "available"
  | booked => utf16 "booked"
  end.

Record t := {
  id : jsstring;
  name : jsstring;
  location : jsstring;
  capacity : Z;
  equipment : list jsstring;
  status : Status;
  created_at : jsstring;
  updated_at : jsstring
}.
End MeetingRoom.

Module Meeting.
Inductive Status := booked | cancelled.

Definition status_string (st : Status) : jsstring :=
  match st with
  | booked => utf16 "booked"
  | cancelled => utf16 "cancelled"
  end.

Record t := {
  id : jsstring;
  room_id : jsstring;
  organizer_id : jsstring;
  title : jsstring;
  start_time : jsstring;
  duration_min : Z;
  status : Status;
  created_at : jsstring;
  updated_at : jsstring
}.
End Meeting.

Module User.
Inductive Role := organizer | participant | admin.

Record t := {
  id : jsstring;
  username : jsstring;
  role : Role;
  department : jsstring;
  created_at : jsstring;
  updated_at : jsstring
}.
End User.

End Supabase.

(* ===================================================================== *)
(** ** Event handlers as computations *)
(* ===================================================================== *)

(** What a handler asks of its environment: a toast, or a callback to be
    run later ([setTimeout]).  [Timer] names the callbacks of a page. *)
Inductive Effect (Timer : Type) :=
| ToastError (msg : jsstring)
| ToastSuccess (msg : jsstring)
| SetTimeout (cb : Timer) (ms : Z).

Arguments ToastError {Timer} msg.
Arguments ToastSuccess {Timer} msg.
Arguments SetTimeout {Timer} cb ms.

(** A handler reads and writes the [useState] cells [St] of its component
    and appends to the log of effects. *)
Definition Handler (St Timer A : Type) : Type :=
  St -> A * St * list (Effect Timer).

#[global] Instance handler_ret {St Timer} : MRet (Handler St Timer) :=
  λ A a s, (a, s, []).

#[global] Instance handler_bind {St Timer} : MBind (Handler St Timer) :=
  λ A B f m s,
    let '(a, s1, e1) := m s in
    let '(b, s2, e2) := f a s1 in
    (b, s2, e1 ++ e2).

Section Handler.
Context {St Timer : Type}.

Definition gets {A} (cell : St -> A) : Handler St Timer A :=
  λ s, (cell s, s, []).

Definition modify (f : St -> St) : Handler St Timer unit :=
  λ s, (tt, f s, []).

Definition emit (e : Effect Timer) : Handler St Timer unit :=
  λ s, (tt, s, [e]).

Definition toast_error (msg : jsstring) := emit (ToastError msg).
Definition toast_success (msg : jsstring) := emit (ToastSuccess msg).
Definition setTimeout (cb : Timer) (ms : Z) := emit (SetTimeout cb ms).

(** The cells and the effect log a handler leaves behind. *)
Definition run {A} (h : Handler St Timer A) (s : St)
  : St * list (Effect Timer) :=
  let '(_, s', es) := h s in (s', es).

Definition timers (es : list (Effect Timer)) : list Timer :=
  omap (λ e, match e with SetTimeout cb _ => Some cb | _ => None end) es.

Definition errors (es : list (Effect Timer)) : list jsstring :=
  omap (λ e, match e with ToastError msg => Some msg | _ => None end) es.

(** A handler followed by the callbacks it has scheduled, in the order
    they were scheduled. *)
Definition settle (fire : Timer -> Handler St Timer unit)
    (h : Handler St Timer unit) (s : St) : St * list (Effect Timer) :=
  let '(s1, e1) := run h s in
  foldl (λ acc cb,
           let '(s', e') := run (fire cb) acc.1 in (s', acc.2 ++ e'))
        (s1, e1) (timers e1).

End Handler.

(* ===================================================================== *)
(** ** [BookingPage.tsx] *)
(* ===================================================================== *)

Module BookingPage.

Record MeetingIntent := {
  datetime : jsstring;
  participants : Z;
  location : jsstring;
  requirements : list jsstring
}.

Record RoomRecommendation := {
  room_id : jsstring;
  name : jsstring;
  capacity : Z;
  equipment : list jsstring;
  status : jsstring;
  match_score : number;
  deviation : list jsstring
}.

Record BookingForm := { title : jsstring; duration : Z }.

(** The [useState] cells of the component. *)
Record State := {
  inputText : jsstring;
  isProcessing : bool;
  intent : option MeetingIntent;
  recommendations : list RoomRecommendation;
  showBookingModal : bool;
  selectedRoom : option RoomRecommendation;
  bookingForm : BookingForm
}.

Definition initial : State := {|
  inputText := utf16 "";
  isProcessing := false;
  intent := None;
  recommendations := [];
  showBookingModal := false;
  selectedRoom := None;
  bookingForm := {| title := utf16 ""; duration := 60 |}
|}.

(** The two [setTimeout] callbacks of the page. *)
Inductive Timer := SubmitTimer | BookingTimer.

Definition H := Handler State Timer.

Definition setInputText (v : jsstring) : H unit :=
  modify (λ s, {| inputText := v; isProcessing := isProcessing s;
                  intent := intent s; recommendations := recommendations s;
                  showBookingModal := showBookingModal s;
                  selectedRoom := selectedRoom s;
                  bookingForm := bookingForm s |}).

Definition setIsProcessing (v : bool) : H unit :=
  modify (λ s, {| inputText := inputText s; isProcessing := v;
                  intent := intent s; recommendations := recommendations s;
                  showBookingModal := showBookingModal s;
                  selectedRoom := selectedRoom s;
                  bookingForm := bookingForm s |}).

Definition setIntent (v : option MeetingIntent) : H unit :=
  modify (λ s, {| inputText := inputText s; isProcessing := isProcessing s;
                  intent := v; recommendations := recommendations s;
                  showBookingModal := showBookingModal s;
                  selectedRoom := selectedRoom s;
                  bookingForm := bookingForm s |}).

Definition setRecommendations (v : list RoomRecommendation) : H unit :=
  modify (λ s, {| inputText := inputText s; isProcessing := isProcessing s;
                  intent := intent s; recommendations := v;
                  showBookingModal := showBookingModal s;
                  selectedRoom := selectedRoom s;
                  bookingForm := bookingForm s |}).

Definition setShowBookingModal (v : bool) : H unit :=
  modify (λ s, {| inputText := inputText s; isProcessing := isProcessing s;
                  intent := intent s; recommendations := recommendations s;
                  showBookingModal := v;
                  selectedRoom := selectedRoom s;
                  bookingForm := bookingForm s |}).

Definition setSelectedRoom (v : option RoomRecommendation) : H unit :=
  modify (λ s, {| inputText := inputText s; isProcessing := isProcessing s;
                  intent := intent s; recommendations := recommendations s;
                  showBookingModal := showBookingModal s;
                  selectedRoom := v;
                  bookingForm := bookingForm s |}).

Definition setBookingForm (v : BookingForm) : H unit :=
  modify (λ s, {| inputText := inputText s; isProcessing := isProcessing s;
                  intent := intent s; recommendations := recommendations s;
                  showBookingModal := showBookingModal s;
                  selectedRoom := selectedRoom s;
                  bookingForm := v |}).

(** Mock data for demonstration. *)
Definition mockRecommendations : list RoomRecommendation := [
  {| room_id := utf16 "A301";
     name := utf16 "A栋301会议室";
     capacity := 12;
     equipment := [utf16 "视频会议"; utf16 "白板"; utf16 "投影仪"];
     status := utf16 "available";
     match_score := Lit.n0_92;
     deviation := [] |};
  {| room_id := utf16 "A305";
     name := utf16 "A栋305会议室";
     capacity := 10;
     equipment := [utf16 "白板"; utf16 "投影仪"];
     status := utf16 "available";
     match_score := Lit.n0_75;
     deviation := [utf16 "缺少视频会议"] |};
  {| room_id := utf16 "B201";
     name := utf16 "B栋201会议室";
     capacity := 15;
     equipment := [utf16 "视频会议"; utf16 "白板"; utf16 "投影仪";
                   utf16 "音响"];
     status := utf16 "available";
     match_score := Lit.n0_88;
     deviation := [utf16 "容量超出需求"] |}
].

Definition mockIntent : MeetingIntent := {|
  datetime := utf16 "2025-01-15T15:00:00";
  participants := 10;
  location := utf16 "A栋";
  requirements := [utf16 "视频会议"]
|}.

Definition handleSubmit : H unit :=
  text ← gets inputText;
  if negb (truthy (trim text)) then
    toast_error (utf16 "请输入会议需求")
  else
    setIsProcessing true;;
    (* Simulate API call *)
    setTimeout SubmitTimer 2000.

Definition handleSubmit_timeout : H unit :=
  setIntent (Some mockIntent);;
  setRecommendations mockRecommendations;;
  setIsProcessing false;;
  toast_success (utf16 "已识别您的需求，为您推荐会议室").

Definition handleBookRoom (room : RoomRecommendation) : H unit :=
  setSelectedRoom (Some room);;
  setShowBookingModal true.

Definition confirmBooking : H unit :=
  form ← gets bookingForm;
  if negb (truthy (trim (title form))) then
    toast_error (utf16 "请输入会议主题")
  else
    setIsProcessing true;;
    (* Simulate booking API call *)
    setTimeout BookingTimer 1000.

Definition confirmBooking_timeout : H unit :=
  toast_success (utf16 "会议室预定成功！");;
  setShowBookingModal false;;
  setSelectedRoom None;;
  setBookingForm {| title := utf16 ""; duration := 60 |};;
  setIsProcessing false.

Definition fire (cb : Timer) : H unit :=
  match cb with
  | SubmitTimer => handleSubmit_timeout
  | BookingTimer => confirmBooking_timeout
  end.

(** The inline handlers of the form controls. *)
Definition onTitleChange (v : jsstring) : H unit :=
  form ← gets bookingForm;
  setBookingForm {| title := v; duration := duration form |}.

Definition onDurationChange (v : Z) : H unit :=
  form ← gets bookingForm;
  setBookingForm {| title := title form; duration := v |}.

(** One submission as its caller sees it: the request is the text of the
    input box; the answer is the content of the [recommendations] cell
    once the scheduled callback has run, or the error that was shown. *)
Inductive Outcome :=
| ValidationError (msg : jsstring)
| Recommended (recs : list RoomRecommendation).

Definition submitted (s : State) : State :=
  (settle fire handleSubmit s).1.

Definition recommend (s : State) : Outcome :=
  let '(s', es) := settle fire handleSubmit s in
  match errors es with
  | msg :: _ => ValidationError msg
  | [] => Recommended (recommendations s')
  end.

End BookingPage.

(* ===================================================================== *)
(** ** [TasksPage.tsx] *)
(* ===================================================================== *)

Module TasksPage.

(** ['draft' | 'confirmed' | 'done'] *)
Inductive TaskStatus := draft | confirmed | done.

Record Task := {
  id : jsstring;
  description : jsstring;
  owner : jsstring;
  department : jsstring;
  due_date : jsstring;
  status : TaskStatus
}.

Definition mockTasks : list Task := [
  {| id := utf16 "1"; description := utf16 "完成前端主要功能开发";
     owner := utf16 "张三"; department := utf16 "研发部";
     due_date := utf16 "2025-01-20"; status := confirmed |};
  {| id := utf16 "2"; description := utf16 "补充测试用例到80%覆盖率";
     owner := utf16 "李四"; department := utf16 "测试部";
     due_date := utf16 "2025-01-18"; status := draft |};
  {| id := utf16 "3"; description := utf16 "准备产品发布材料";
     owner := utf16 "王五"; department := utf16 "市场部";
     due_date := utf16 "2025-01-25"; status := draft |};
  {| id := utf16 "4"; description := utf16 "优化后端性能";
     owner := utf16 "赵六"; department := utf16 "研发部";
     due_date := utf16 "2025-01-22"; status := done |};
  {| id := utf16 "5"; description := utf16 "用户调研报告";
     owner := utf16 "孙七"; department := utf16 "产品部";
     due_date := utf16 "2025-01-30"; status := confirmed |}
].

(** The single [useState] cell of the component. *)
Record State := { tasks : list Task }.

Definition initial : State := {| tasks := mockTasks |}.

Definition H := Handler State Empty_set.

Definition setTasks (v : list Task) : H unit :=
  modify (λ _, {| tasks := v |}).

(** [{ ...task, status: newStatus }] *)
Definition with_status (task : Task) (newStatus : TaskStatus) : Task :=
  {| id := id task; description := description task; owner := owner task;
     department := department task; due_date := due_date task;
     status := newStatus |}.

(** [{ ...task, owner: newOwner }] *)
Definition with_owner (task : Task) (newOwner : jsstring) : Task :=
  {| id := id task; description := description task; owner := newOwner;
     department := department task; due_date := due_date task;
     status := status task |}.

Definition getTasksByDepartment (dept : jsstring) (s : State) : list Task :=
  filter (λ task, department task = dept) (tasks s).

Definition updateTaskStatus (taskId : jsstring) (newStatus : TaskStatus)
  : H unit :=
  ts ← gets tasks;
  setTasks (map (λ task,
                   if decide (id task = taskId)
                   then with_status task newStatus
                   else task) ts);;
  toast_success (utf16 "任务状态已更新").

Definition updateTaskOwner (taskId : jsstring) (newOwner : jsstring)
  : H unit :=
  ts ← gets tasks;
  setTasks (map (λ task,
                   if decide (id task = taskId)
                   then with_owner task newOwner
                   else task) ts);;
  toast_success (utf16 "任务负责人已更新").

Definition departments : list jsstring :=
  [utf16 "研发部"; utf16 "测试部"; utf16 "市场部"; utf16 "产品部"].

#[global] Instance TaskStatus_eq_dec : EqDecision TaskStatus.
Proof. solve_decision. Defined.

(** The string a status is at run time. *)
Definition status_string (st : TaskStatus) : jsstring :=
  match st with
  | draft => utf16 "draft"
  | confirmed => utf16 "confirmed"
  | done => utf16 "done"
  end.

Definition getStatusText (st : TaskStatus) : jsstring :=
  match st with
  | draft => utf16 "草稿"
  | confirmed => utf16 "已确认"
  | done => utf16 "已完成"
  end.

(** [getTasksByDepartment(department).length], the badge of a column. *)
Definition columnSize (dept : jsstring) (s : State) : nat :=
  length (getTasksByDepartment dept s).

(** [tasks.filter(t => t.status === st).length], the figures of the
    summary card. *)
Definition countByStatus (st : TaskStatus) (s : State) : nat :=
  length (filter (λ t, status t = st) (tasks s)).

End TasksPage.

(* ===================================================================== *)
(** ** The settings page *)
(* ===================================================================== *)

Module SettingsPage.

(** ['organizer' | 'participant' | 'admin'] *)
Inductive Role := organizer | participant | admin.

Module User.
Record t := {
  id : jsstring;
  username : jsstring;
  role : Role;
  department : jsstring
}.
End User.

Module Template.
Record t := {
  id : jsstring;
  name : jsstring;
  description : jsstring
}.
End Template.

(** The shape of the [newUser] cell. *)
Module NewUser.
Record t := {
  username : jsstring;
  role : Role;
  department : jsstring
}.
End NewUser.

(** The shape of the [newTemplate] cell. *)
Module NewTemplate.
Record t := {
  name : jsstring;
  description : jsstring
}.
End NewTemplate.

Definition mockUsers : list User.t := [
  {| User.id := utf16 "1"; User.username := utf16 "admin";
     User.role := admin; User.department := utf16 "管理部" |};
  {| User.id := utf16 "2"; User.username := utf16 "张三";
     User.role := organizer; User.department := utf16 "研发部" |};
  {| User.id := utf16 "3"; User.username := utf16 "李四";
     User.role := participant; User.department := utf16 "测试部" |};
  {| User.id := utf16 "4"; User.username := utf16 "王五";
     User.role := organizer; User.department := utf16 "市场部" |}
].

Definition mockTemplates : list Template.t := [
  {| Template.id := utf16 "default"; Template.name := utf16 "默认模板";
     Template.description := utf16 "标准会议纪要模板" |};
  {| Template.id := utf16 "project"; Template.name := utf16 "项目会议模板";
     Template.description := utf16 "适用于项目相关会议" |};
  {| Template.id := utf16 "review"; Template.name := utf16 "评审会议模板";
     Template.description := utf16 "适用于技术评审会议" |}
].

(** The [useState] cells of the component. *)
Record State := {
  activeTab : jsstring;
  users : list User.t;
  templates : list Template.t;
  newUser : NewUser.t;
  newTemplate : NewTemplate.t
}.

Definition initial : State := {|
  activeTab := utf16 "users";
  users := mockUsers;
  templates := mockTemplates;
  newUser := {| NewUser.username := utf16 ""; NewUser.role := participant;
                NewUser.department := utf16 "" |};
  newTemplate := {| NewTemplate.name := utf16 "";
                    NewTemplate.description := utf16 "" |}
|}.

Definition H := Handler State Empty_set.

Definition setUsers (v : list User.t) : H unit :=
  modify (λ s, {| activeTab := activeTab s; users := v;
                  templates := templates s; newUser := newUser s;
                  newTemplate := newTemplate s |}).

Definition setNewUser (v : NewUser.t) : H unit :=
  modify (λ s, {| activeTab := activeTab s; users := users s;
                  templates := templates s; newUser := v;
                  newTemplate := newTemplate s |}).

(** [now] is the value [Date.now()] returns when the handler runs. *)
Definition handleAddUser (now : N) : H unit :=
  nu ← gets newUser;
  if negb (truthy (NewUser.username nu))
     || negb (truthy (NewUser.department nu)) then
    toast_error (utf16 "请填写完整信息")
  else
    let user := {| User.id := toString now;
                   User.username := NewUser.username nu;
                   User.role := NewUser.role nu;
                   User.department := NewUser.department nu |} in
    us ← gets users;
    setUsers (us ++ [user]);;
    setNewUser {| NewUser.username := utf16 ""; NewUser.role := participant;
                  NewUser.department := utf16 "" |};;
    toast_success (utf16 "用户添加成功").

Definition handleDeleteUser (userId : jsstring) : H unit :=
  us ← gets users;
  setUsers (filter (λ user, User.id user ≠ userId) us);;
  toast_success (utf16 "用户删除成功").

Definition setActiveTab (v : jsstring) : H unit :=
  modify (λ s, {| activeTab := v; users := users s;
                  templates := templates s; newUser := newUser s;
                  newTemplate := newTemplate s |}).

Definition setTemplates (v : list Template.t) : H unit :=
  modify (λ s, {| activeTab := activeTab s; users := users s;
                  templates := v; newUser := newUser s;
                  newTemplate := newTemplate s |}).

Definition setNewTemplate (v : NewTemplate.t) : H unit :=
  modify (λ s, {| activeTab := activeTab s; users := users s;
                  templates := templates s; newUser := newUser s;
                  newTemplate := v |}).

(** [now] is the value [Date.now()] returns when the handler runs. *)
Definition handleAddTemplate (now : N) : H unit :=
  nt ← gets newTemplate;
  if negb (truthy (NewTemplate.name nt))
     || negb (truthy (NewTemplate.description nt)) then
    toast_error (utf16 "请填写完整信息")
  else
    let template := {| Template.id := toString now;
                       Template.name := NewTemplate.name nt;
                       Template.description := NewTemplate.description nt |} in
    ts ← gets templates;
    setTemplates (ts ++ [template]);;
    setNewTemplate {| NewTemplate.name := utf16 "";
                      NewTemplate.description := utf16 "" |};;
    toast_success (utf16 "模板添加成功").

Definition handleDeleteTemplate (templateId : jsstring) : H unit :=
  ts ← gets templates;
  setTemplates (filter (λ template, Template.id template ≠ templateId) ts);;
  toast_success (utf16 "模板删除成功").

Definition getRoleText (r : Role) : jsstring :=
  match r with
  | admin => utf16 "管理员"
  | organizer => utf16 "组织者"
  | participant => utf16 "参与者"
  end.

(** The inline handlers of the form for a new user. *)
Definition onUsernameChange (v : jsstring) : H unit :=
  nu ← gets newUser;
  setNewUser {| NewUser.username := v; NewUser.role := NewUser.role nu;
                NewUser.department := NewUser.department nu |}.

Definition onRoleChange (v : Role) : H unit :=
  nu ← gets newUser;
  setNewUser {| NewUser.username := NewUser.username nu; NewUser.role := v;
                NewUser.department := NewUser.department nu |}.

Definition onDepartmentChange (v : jsstring) : H unit :=
  nu ← gets newUser;
  setNewUser {| NewUser.username := NewUser.username nu;
                NewUser.role := NewUser.role nu;
                NewUser.department := v |}.

(** [users.filter(user => user.department === dept).length], the head
    count of a department card. *)
Definition headcount (dept : jsstring) (s : State) : nat :=
  length (filter (λ user, User.department user = dept) (users s)).

End SettingsPage.


(* ===================================================================== *)
(** ** The booking engine *)
(* ===================================================================== *)

(** The front end only simulates the booking call ([confirmBooking]); the
    operations [book], [cancel] and [alter] live in the back end, whose
    code is not part of the sources embedded here.  They are modelled from
    sections 3, 4.2 and 4.4 of the specification. *)
Module Engine.

(** Modelled from the spec: the identifiers of rooms and bookings of the
    missing back end. *)
Definition RoomId := jsstring.
Definition BookingId := nat.

(** Modelled from the spec: the [TimeRange] of the missing back end, start
    and end instants with half-open interval semantics. *)
Record TimeRange := { start : Z; finish : Z }.

(** Modelled from the spec: [TimeRange]s of the missing back end compare
    by their two instants. *)
#[global] Instance TimeRange_eq_dec : EqDecision TimeRange.
Proof. solve_decision. Defined.

(** Modelled from the spec: the [TimeRange] invariant [start < end], which
    the missing request validation checks. *)
Definition well_formed (r : TimeRange) : bool := start r <? finish r.

(** Modelled from the spec: two ranges of the missing back end overlap iff
    [a.start < b.end && b.start < a.end]. *)
Definition overlap (a b : TimeRange) : bool :=
  (start a <? finish b) && (start b <? finish a).

(** Modelled from the spec: the lifecycle status of a [Room] of the missing
    RoomCatalog. *)
Inductive Lifecycle := active | retired.

(** Modelled from the spec: the [Room] record of the missing RoomCatalog. *)
Record Room := {
  display_name : jsstring;
  location : jsstring;
  capacity : Z;
  equipment : list jsstring;
  lifecycle : Lifecycle
}.

(** Modelled from the spec: the status of a [Booking] of the missing
    booking store. *)
Inductive BookingStatus := booked | cancelled.

(** Modelled from the spec: the [Booking] record of the missing booking
    store; its identifier is its key in the store. *)
Record Booking := {
  room : RoomId;
  organizer : jsstring;
  title : jsstring;
  range : TimeRange;
  status : BookingStatus
}.

(** Modelled from the spec: the error taxonomy of the missing back end;
    a [Conflict] names the booking that caused it. *)
Inductive Error :=
| ValidationError
| NotFoundError
| Conflict (by_booking : BookingId)
| ExternalServiceError.

(** Modelled from the spec: the missing AvailabilityIndex, per room the
    confirmed intervals with the bookings that hold them. *)
Abbreviation Index := (gmap RoomId (list (TimeRange * BookingId))).

(** Modelled from the spec: the state the missing back end keeps, the
    RoomCatalog, the Booking store and the AvailabilityIndex. *)
Record State := {
  catalog : gmap RoomId Room;
  bookings : gmap BookingId Booking;
  index : Index
}.

(** Modelled from the spec: the missing back end before any booking, with
    an empty Booking store and an empty AvailabilityIndex. *)
Definition boot (cat : gmap RoomId Room) : State :=
  {| catalog := cat; bookings := ∅; index := ∅ |}.

(** Modelled from the spec: [RoomCatalog.get] of the missing back end,
    which fails with NotFound if the room is absent or retired. *)
Definition get (cat : gmap RoomId Room) (r : RoomId) : Error + Room :=
  match cat !! r with
  | Some rm =>
    match lifecycle rm with
    | active => inr rm
    | retired => inl NotFoundError
    end
  | None => inl NotFoundError
  end.

(** Modelled from the spec: the first interval of the missing
    AvailabilityIndex that overlaps the range, for the Conflict report. *)
Definition conflict (idx : Index) (r : RoomId) (rg : TimeRange)
  : option (TimeRange * BookingId) :=
  find (λ e, overlap e.1 rg) (idx !!! r).

(** Modelled from the spec: [AvailabilityIndex.isFree] of the missing back
    end, true iff no booked interval of the room overlaps the range. *)
Definition isFree (idx : Index) (r : RoomId) (rg : TimeRange) : bool :=
  forallb (λ e, negb (overlap e.1 rg)) (idx !!! r).

(** Modelled from the spec: [AvailabilityIndex.reserve] of the missing back
    end, which inserts the interval without re-checking. *)
Definition reserve (idx : Index) (r : RoomId) (rg : TimeRange)
    (b : BookingId) : Index :=
  <[r := (rg, b) :: idx !!! r]> idx.

(** Modelled from the spec: [AvailabilityIndex.release] of the missing back
    end, which removes the interval and is a no-op when it is absent. *)
Definition release (idx : Index) (r : RoomId) (rg : TimeRange)
    (b : BookingId) : Index :=
  <[r := filter (λ e, e ≠ (rg, b)) (idx !!! r)]> idx.

(** Modelled from the spec: the status transition of a Booking record of
    the missing booking store. *)
Definition with_status (b : Booking) (st : BookingStatus) : Booking :=
  {| room := room b; organizer := organizer b; title := title b;
     range := range b; status := st |}.

(** Modelled from the spec: the in-place update of the range of a Booking
    record of the missing booking store, identity preserved. *)
Definition with_range (b : Booking) (rg : TimeRange) : Booking :=
  {| room := room b; organizer := organizer b; title := title b;
     range := rg; status := status b |}.

(** Modelled from the spec: [book] of the missing
    BookingTransactionManager.  The request is validated, the room looked
    up, [isFree] re-validated; if free the interval is reserved and a new
    Booking with status booked is persisted, otherwise the operation fails
    with Conflict. *)
Definition book (r : RoomId) (rg : TimeRange) (org ttl : jsstring)
    (s : State) : Error + (BookingId * State) :=
  if negb (well_formed rg) then inl ValidationError
  else match get (catalog s) r with
  | inl e => inl e
  | inr _ =>
    if isFree (index s) r rg then
      let id := fresh (dom (bookings s)) in
      let b := {| room := r; organizer := org; title := ttl;
                  range := rg; status := booked |} in
      inr (id, {| catalog := catalog s;
                  bookings := <[id := b]> (bookings s);
                  index := reserve (index s) r rg id |})
    else
      match conflict (index s) r rg with
      | Some (_, other) => inl (Conflict other)
      | None => inl (Conflict 0%nat)
      end
  end.

(** Modelled from the spec: [cancel] of the missing
    BookingTransactionManager.  An unknown id is NotFound; cancelling a
    cancelled booking succeeds as a no-op; the interval is released in the
    same transaction. *)
Definition cancel (id : BookingId) (s : State) : Error + State :=
  match bookings s !! id with
  | None => inl NotFoundError
  | Some b =>
    match status b with
    | cancelled => inr s
    | booked =>
      inr {| catalog := catalog s;
             bookings := <[id := with_status b cancelled]> (bookings s);
             index := release (index s) (room b) (range b) id |}
    end
  end.

(** Modelled from the spec: [alter] of the missing
    BookingTransactionManager.  The old interval is released, the new one
    validated against the remaining intervals of the same room and
    reserved, and the record's range updated in place; on a conflict the
    original state is kept and the operation fails with Conflict.  The
    spec does not say what altering a cancelled booking does; no edge of
    its state machine leads back to booked, and the model rejects the
    request as invalid. *)
Definition alter (id : BookingId) (rg : TimeRange) (s : State)
    : Error + State :=
  match bookings s !! id with
  | None => inl NotFoundError
  | Some b =>
    if negb (well_formed rg) then inl ValidationError
    else match status b with
    | cancelled => inl ValidationError
    | booked =>
      let released := release (index s) (room b) (range b) id in
      if isFree released (room b) rg then
        inr {| catalog := catalog s;
               bookings := <[id := with_range b rg]> (bookings s);
               index := reserve released (room b) rg id |}
      else
        match conflict released (room b) rg with
        | Some (_, other) => inl (Conflict other)
        | None => inl (Conflict 0%nat)
        end
    end
  end.

(** Modelled from the spec: the mutating operations the missing back end
    exposes to its callers. *)
Inductive Op :=
| Book (r : RoomId) (rg : TimeRange) (org ttl : jsstring)
| Cancel (id : BookingId)
| Alter (id : BookingId) (rg : TimeRange).

(** Modelled from the spec: one request served by the missing back end;
    requests on one room are serialized, so each runs to its end. *)
Definition apply (op : Op) (s : State) : Error + State :=
  match op with
  | Book r rg org ttl =>
    match book r rg org ttl s with
    | inr (_, s') => inr s'
    | inl e => inl e
    end
  | Cancel id => cancel id s
  | Alter id rg => alter id rg s
  end.

(** Modelled from the spec: the state of the missing back end after a
    request; a request that fails creates no partial state. *)
Definition exec (op : Op) (s : State) : State :=
  match apply op s with
  | inr s' => s'
  | inl _ => s
  end.

(** Modelled from the spec: the invariant of the missing Booking store,
    per room the ranges of the bookings with status booked are pairwise
    non-overlapping. *)
Definition no_double_booking (s : State) : Prop :=
  ∀ i j b1 b2,
    i ≠ j →
    bookings s !! i = Some b1 → bookings s !! j = Some b2 →
    status b1 = booked → status b2 = booked →
    room b1 = room b2 →
    overlap (range b1) (range b2) = false.

(** Modelled from the spec: the missing AvailabilityIndex as a projection
    of the Booking store, every booked Booking holds its interval in it. *)
Definition indexed (s : State) : Prop :=
  ∀ i b,
    bookings s !! i = Some b → status b = booked →
    (range b, i) ∈ index s !!! room b.

(** Modelled from the spec: what the store and the index of the missing
    back end keep true together. *)
Definition consistent (s : State) : Prop :=
  indexed s ∧ no_double_booking s.

End Engine.

(* ===================================================================== *)
(** ** The page in front of the engine *)
(* ===================================================================== *)

Module System.

Record t := {
  page : BookingPage.State;
  engine : Engine.State
}.

Definition boot (cat : gmap Engine.RoomId Engine.Room) : t :=
  {| page := BookingPage.initial; engine := Engine.boot cat |}.

(** What can happen: a request reaches the engine, or the user acts on the
    booking page.  A page handler runs with the callbacks it schedules;
    none of them calls the engine, [confirmBooking] included, which only
    simulates the booking call. *)
Inductive Event :=
| Request (op : Engine.Op)
| TypeText (text : jsstring)
| Submit
| PickRoom (room : BookingPage.RoomRecommendation)
| TypeTitle (text : jsstring)
| PickDuration (minutes : Z)
| CloseModal
| ConfirmBooking.

Definition handler (ev : Event) : BookingPage.H unit :=
  match ev with
  | Request _ => mret tt
  | TypeText text => BookingPage.setInputText text
  | Submit => BookingPage.handleSubmit
  | PickRoom room => BookingPage.handleBookRoom room
  | TypeTitle text => BookingPage.onTitleChange text
  | PickDuration minutes => BookingPage.onDurationChange minutes
  | CloseModal => BookingPage.setShowBookingModal false
  | ConfirmBooking => BookingPage.confirmBooking
  end.

Definition step (s : t) (ev : Event) : t :=
  {| page := (settle BookingPage.fire (handler ev) (page s)).1;
     engine := match ev with
               | Request op => Engine.exec op (engine s)
               | _ => engine s
               end |}.

Definition run (evs : list Event) (s : t) : t := foldl step s evs.

End System.


(* ===================================================================== *)
(** ** [MinutesPage.tsx] *)
(* ===================================================================== *)

Module MinutesPage.

Record TranscriptItem := {
  speaker : jsstring;
  text : jsstring;
  timestamp : jsstring
}.

Record MeetingMinutes := {
  title : jsstring;
  summary : jsstring;
  points : list jsstring;
  decisions : list jsstring;
  transcript : list TranscriptItem
}.

(** What the page reads of a DOM [File]: its name and its MIME type. *)
Record File := { name : jsstring; type : jsstring }.

(** The [useState] cells of the component. *)
Record State := {
  isProcessing : bool;
  minutes : option MeetingMinutes;
  selectedFile : option File
}.

Definition initial : State :=
  {| isProcessing := false; minutes := None; selectedFile := None |}.

(** The [setTimeout] callback of the page. *)
Inductive Timer := TranscribeTimer.

Definition H := Handler State Timer.

Definition setIsProcessing (v : bool) : H unit :=
  modify (λ s, {| isProcessing := v; minutes := minutes s;
                  selectedFile := selectedFile s |}).

Definition setMinutes (v : option MeetingMinutes) : H unit :=
  modify (λ s, {| isProcessing := isProcessing s; minutes := v;
                  selectedFile := selectedFile s |}).

Definition setSelectedFile (v : option File) : H unit :=
  modify (λ s, {| isProcessing := isProcessing s; minutes := minutes s;
                  selectedFile := v |}).

(** [file] is [event.target.files?.[0]]. *)
Definition handleFileUpload (file : option File) : H unit :=
  match file with
  | Some f =>
    if startsWith (type f) (utf16 "audio/") then
      setSelectedFile (Some f);;
      toast_success (utf16 "音频文件已选择")
    else
      toast_error (utf16 "请选择音频文件")
  | None => mret tt
  end.

Definition mockMinutes : MeetingMinutes := {|
  title := utf16 "项目复盘会议纪要";
  summary := utf16 "本次会议主要讨论了Q4项目进展，确定了下一阶段的开发计划，并分配了相关任务。";
  points := [
    utf16 "前端开发进度符合预期，预计下周完成主要功能";
    utf16 "后端API接口已全部完成，等待联调测试";
    utf16 "UI设计稿已通过评审，可以开始开发";
    utf16 "测试用例覆盖率需要提升到80%以上"
  ];
  decisions := [
    utf16 "确定下周三进行系统联调测试";
    utf16 "分配张三负责前端优化工作";
    utf16 "李四负责后端性能调优";
    utf16 "王五负责测试用例补充"
  ];
  transcript := [
    {| speaker := utf16 "主持人";
       text := utf16 "大家好，今天我们召开项目复盘会议，首先请各部门汇报一下进展。";
       timestamp := utf16 "00:00:00" |};
    {| speaker := utf16 "张三";
       text := utf16 "前端这边主要功能已经完成80%，预计下周可以完成所有核心功能。";
       timestamp := utf16 "00:01:30" |};
    {| speaker := utf16 "李四";
       text := utf16 "后端API接口已经全部开发完成，现在等待前端联调。";
       timestamp := utf16 "00:03:15" |};
    {| speaker := utf16 "王五";
       text := utf16 "测试用例目前覆盖率是65%，还需要补充一些边界情况的测试。";
       timestamp := utf16 "00:05:20" |};
    {| speaker := utf16 "主持人";
       text := utf16 "好的，那我们确定下周三进行系统联调测试，大家做好准备。";
       timestamp := utf16 "00:08:45" |}
  ]
|}.

Definition handleTranscribe : H unit :=
  file ← gets selectedFile;
  match file with
  | None => toast_error (utf16 "请先选择音频文件")
  | Some _ =>
    setIsProcessing true;;
    (* Simulate transcription process *)
    setTimeout TranscribeTimer 3000
  end.

Definition handleTranscribe_timeout : H unit :=
  setMinutes (Some mockMinutes);;
  setIsProcessing false;;
  toast_success (utf16 "会议纪要生成完成！").

Definition fire (cb : Timer) : H unit :=
  match cb with
  | TranscribeTimer => handleTranscribe_timeout
  end.

(** What the user can do on the page. *)
Inductive Event :=
| Upload (file : option File)
| Transcribe.

Definition handler (ev : Event) : H unit :=
  match ev with
  | Upload file => handleFileUpload file
  | Transcribe => handleTranscribe
  end.

End MinutesPage.

(* ===================================================================== *)
(** ** [AuthContext.tsx] *)
(* ===================================================================== *)

Module AuthContext.

Import Supabase.

(** The [useState] cells of the provider. *)
Record State := {
  user : option User.t;
  loading : bool
}.

Definition initial : State := {| user := None; loading := true |}.

Definition H := Handler State Empty_set.

Definition setUser (v : option User.t) : H unit :=
  modify (λ s, {| user := v; loading := loading s |}).

Definition setLoading (v : bool) : H unit :=
  modify (λ s, {| user := user s; loading := v |}).

(** [created] and [updated] are the two values of
    [new Date().toISOString()].  Nothing in the [try] block throws, so the
    [catch] block is never entered; the [finally] block closes the
    handler. *)
Definition login (username _password : jsstring) (created updated : jsstring)
  : H unit :=
  setLoading true;;
  (* For demo purposes, we'll use a simple mock login *)
  let mockUser := {| User.id := utf16 "u001";
                     User.username := username;
                     User.role := User.organizer;
                     User.department := utf16 "研发部";
                     User.created_at := created;
                     User.updated_at := updated |} in
  setUser (Some mockUser);;
  toast_success (utf16 "登录成功！");;
  setLoading false.

(** [signedOut] tells whether [await supabase.auth.signOut()] returned;
    otherwise it threw and the [catch] block runs. *)
Definition logout (signedOut : bool) : H unit :=
  if signedOut then
    setUser None;;
    toast_success (utf16 "已退出登录")
  else
    toast_error (utf16 "退出登录失败").

(** [session] is the id of [session.user] when there is a session and
    [profile] the row the query on the users table returned, if any. *)
Definition checkUser (session : option jsstring) (profile : option User.t)
  : H unit :=
  match session with
  | Some _ =>
    match profile with
    | Some p => setUser (Some p)
    | None => mret tt
    end
  | None => mret tt
  end;;
  setLoading false.

Definition onAuthStateChange (session : option jsstring)
    (profile : option User.t) : H unit :=
  match session with
  | Some _ =>
    match profile with
    | Some p => setUser (Some p)
    | None => mret tt
    end
  | None => setUser None
  end;;
  setLoading false.

(** What can happen to the provider: a call of [login] or [logout], the
    session check of the mount effect, or an event of the auth
    subscription. *)
Inductive Event :=
| Login (username password created updated : jsstring)
| Logout (signedOut : bool)
| CheckUser (session : option jsstring) (profile : option User.t)
| AuthStateChange (session : option jsstring) (profile : option User.t).

Definition handler (ev : Event) : H unit :=
  match ev with
  | Login username password created updated =>
    login username password created updated
  | Logout signedOut => logout signedOut
  | CheckUser session profile => checkUser session profile
  | AuthStateChange session profile => onAuthStateChange session profile
  end.

Definition after (evs : list Event) (s : State) : State :=
  foldl (λ s ev, (run (handler ev) s).1) s evs.

Definition is_logout (ev : Event) : bool :=
  match ev with Logout _ => true | _ => false end.

End AuthContext.

(* ===================================================================== *)
(** ** Handlers and timers interleaved *)
(* ===================================================================== *)

(** A page at run time: its cells and the callbacks that are scheduled and
    have not run yet.  The user may act at any moment and any pending
    callback may be the next to run. *)
Section Loop.
Context {St Timer Ev : Type}.
Context (handler : Ev → Handler St Timer unit).
Context (fire : Timer → Handler St Timer unit).

Record Running := { cells : St; pending : list Timer }.

Inductive Action :=
| User (ev : Ev)
| Fire (i : nat).

Definition act (r : Running) (a : Action) : Running :=
  match a with
  | User ev =>
    let '(s, es) := run (handler ev) (cells r) in
    {| cells := s; pending := pending r ++ timers es |}
  | Fire i =>
    match pending r !! i with
    | Some cb =>
      let '(s, es) := run (fire cb) (cells r) in
      {| cells := s; pending := delete i (pending r) ++ timers es |}
    | None => r
    end
  end.

Definition play (acts : list Action) (r : Running) : Running :=
  foldl act r acts.

Definition start (s : St) : Running := {| cells := s; pending := [] |}.

End Loop.

Arguments Running : clear implicits.
Arguments Action : clear implicits.

(** What the booking page keeps true while handlers and callbacks
    interleave: the intent and the recommendations are set together, the
    booking modal is only shown with a room selected, and the page is only
    processing while a callback is pending. *)
Definition booking_page_ok (r : Running BookingPage.State BookingPage.Timer)
  : Prop :=
  let s := cells r in
  (BookingPage.intent s = None ∧ BookingPage.recommendations s = []
   ∨ BookingPage.intent s = Some BookingPage.mockIntent
     ∧ BookingPage.recommendations s = BookingPage.mockRecommendations)
  ∧ (BookingPage.showBookingModal s = true →
     is_Some (BookingPage.selectedRoom s))
  ∧ (BookingPage.isProcessing s = true → pending r ≠ []).

(** What the minutes page keeps true while handlers and callbacks
    interleave: the selected file is an audio file, minutes are the mock
    minutes and only exist with a file selected, the page is only
    processing while a callback is pending, and a callback is only pending
    with a file selected. *)
Definition minutes_page_ok (r : Running MinutesPage.State MinutesPage.Timer)
  : Prop :=
  let s := cells r in
  (∀ f, MinutesPage.selectedFile s = Some f →
        startsWith (MinutesPage.type f) (utf16 "audio/") = true)
  ∧ (∀ m, MinutesPage.minutes s = Some m →
          m = MinutesPage.mockMinutes ∧ is_Some (MinutesPage.selectedFile s))
  ∧ (MinutesPage.isProcessing s = true → pending r ≠ [])
  ∧ (pending r ≠ [] → is_Some (MinutesPage.selectedFile s)).

(* ===================================================================== *)
(** ** Orders on recommendation lists *)
(* ===================================================================== *)

(** The vocabulary in which the ordering of a recommendation list is
    stated. *)
Module Ranking.

Import BookingPage.

(** [a < b] on strings: lexicographic on code units. *)
Fixpoint string_lt (a b : jsstring) : bool :=
  match a, b with
  | _, [] => false
  | [], _ :: _ => true
  | x :: a', y :: b' => (x <? y)%N || (x =? y)%N && string_lt a' b'
  end.

(** [r1] may stand before [r2] in a list sorted descending by match score,
    ties broken by ascending room identifier. *)
Definition precedes (r1 r2 : RoomRecommendation) : bool :=
  gt (match_score r1) (match_score r2)
  || SFeqb (match_score r1) (match_score r2)
     && string_lt (room_id r1) (room_id r2).

Fixpoint ordered {A} (rel : A → A → bool) (l : list A) : bool :=
  match l with
  | x :: (y :: _) as t => rel x y && ordered rel t
  | _ => true
  end.

Definition ranked (l : list RoomRecommendation) : bool :=
  ordered precedes l.

Definition ascending_by_room (l : list RoomRecommendation) : bool :=
  ordered (λ r1 r2, string_lt (room_id r1) (room_id r2)) l.

End Ranking.

(* ===================================================================== *)
(** ** Sample states *)
(* ===================================================================== *)

Module Sample.

(** The request the input box suggests as its placeholder. *)
Definition request : jsstring :=
  utf16 "明天下午三点，10人，A栋，需要视频会议".

(** The booking page with [text] typed into the input box. *)
Definition typed (text : jsstring) : BookingPage.State :=
  (run (BookingPage.setInputText text) BookingPage.initial).1.

(** The booking page after a first submission, a room picked and the
    input retyped: every cell but the input text differs from [typed]. *)
Definition revisited (text : jsstring) : BookingPage.State :=
  let s1 := BookingPage.submitted (typed (utf16 "10人")) in
  let s2 := match BookingPage.recommendations s1 with
            | room :: _ => (run (BookingPage.handleBookRoom room) s1).1
            | [] => s1
            end in
  (run (BookingPage.setInputText text) s2).1.

(** A line of blanks: spaces, a tab, a line feed and an ideographic
    space. *)
Definition blanks : jsstring := [32; 32; 9; 10; 12288]%N.

(** A row of [meeting_rooms], as the REST documentation shows A301. *)
Definition room_A301 : Supabase.MeetingRoom.t := {|
  Supabase.MeetingRoom.id := utf16 "A301";
  Supabase.MeetingRoom.name := utf16 "A栋301会议室";
  Supabase.MeetingRoom.location := utf16 "A栋";
  Supabase.MeetingRoom.capacity := 12;
  Supabase.MeetingRoom.equipment := [utf16 "视频会议"; utf16 "白板"];
  Supabase.MeetingRoom.status := Supabase.MeetingRoom.available;
  Supabase.MeetingRoom.created_at := utf16 "2025-01-01T00:00:00";
  Supabase.MeetingRoom.updated_at := utf16 "2025-01-01T00:00:00"
|}.

(** The settings page with the form for a new user filled in. *)
Definition filled : SettingsPage.State :=
  (run (SettingsPage.setNewUser
          {| SettingsPage.NewUser.username := utf16 "赵六";
             SettingsPage.NewUser.role := SettingsPage.organizer;
             SettingsPage.NewUser.department := utf16 "研发部" |})
       SettingsPage.initial).1.

(** The settings page with the department of the new user left empty. *)
Definition half_filled : SettingsPage.State :=
  (run (SettingsPage.setNewUser
          {| SettingsPage.NewUser.username := utf16 "赵六";
             SettingsPage.NewUser.role := SettingsPage.organizer;
             SettingsPage.NewUser.department := utf16 "" |})
       SettingsPage.initial).1.

(** A catalog with the room A301 of Scenario A. *)
Definition catalog : gmap Engine.RoomId Engine.Room :=
  {[ utf16 "A301" :=
       {| Engine.display_name := utf16 "A栋301会议室";
          Engine.location := utf16 "A栋";
          Engine.capacity := 12;
          Engine.equipment := [utf16 "视频会议"; utf16 "白板"];
          Engine.lifecycle := Engine.active |} ]}.

(** A range of the day, in minutes after midnight. *)
Definition slot (h1 m1 h2 m2 : Z) : Engine.TimeRange :=
  {| Engine.start := 60 * h1 + m1; Engine.finish := 60 * h2 + m2 |}.

Definition book_A301 (rg : Engine.TimeRange) : System.Event :=
  System.Request (Engine.Book (utf16 "A301") rg (utf16 "张三")
                    (utf16 "项目复盘会议")).

(** Scenario B, with the page used in between: A301 is booked 09:00-10:00;
    a request for 09:30-10:30 conflicts, one for 10:00-11:00 succeeds. *)
Definition scenario_B : list System.Event := [
  book_A301 (slot 9 0 10 0);
  System.TypeText request;
  System.Submit;
  System.TypeTitle (utf16 "项目复盘会议");
  System.ConfirmBooking;
  book_A301 (slot 9 30 10 30);
  book_A301 (slot 10 0 11 0)
].

(** Scenario C after Scenario B: altering the first booking to 09:30-10:30
    conflicts with the second. *)
Definition scenario_C : list System.Event :=
  scenario_B ++ [System.Request (Engine.Alter 0%nat (slot 9 30 10 30))].

End Sample.

(* ===================================================================== *)
(** * Properties *)
(* ===================================================================== *)

(** ** Strings and numbers *)

Section TrimFacts.

Lemma trimStart_nil_iff (s : jsstring) :
  trimStart s = [] ↔ forallb isWhiteSpace s = true.
Proof.
  induction s as [|c r IH]; simpl; [done|].
  destruct (isWhiteSpace c); simpl; [exact IH|].
  split; discriminate.
Qed.

Lemma trimStart_head (s : jsstring) c r :
  trimStart s = c :: r → isWhiteSpace c = false.
Proof.
  induction s as [|d t IH]; simpl; [discriminate|].
  destruct (isWhiteSpace d) eqn:Hd; [exact IH|].
  intros [= <- _]. exact Hd.
Qed.

Lemma forallb_reverse (f : codeunit → bool) (s : jsstring) :
  forallb f (reverse s) = forallb f s.
Proof.
  induction s as [|c r IH]; [done|].
  rewrite reverse_cons, forallb_app, IH. simpl.
  rewrite andb_true_r. apply andb_comm.
Qed.

Lemma trim_nil_iff (s : jsstring) :
  trim s = [] ↔ forallb isWhiteSpace s = true.
Proof.
  unfold trim, trimEnd. split.
  - intros H.
    assert (Hr : trimStart (reverse (trimStart s)) = []).
    { rewrite <- (reverse_involutive (trimStart _)). by rewrite H. }
    apply trimStart_nil_iff in Hr. rewrite forallb_reverse in Hr.
    destruct (trimStart s) as [|c r] eqn:Hs.
    + by apply trimStart_nil_iff.
    + apply trimStart_head in Hs. simpl in Hr. by rewrite Hs in Hr.
  - intros H. apply trimStart_nil_iff in H. by rewrite H.
Qed.

Lemma truthy_false_iff (s : jsstring) : truthy s = false ↔ s = [].
Proof. destruct s; simpl; split; (done || discriminate). Qed.

Lemma blank_falsy (s : jsstring) :
  forallb isWhiteSpace s = true → truthy (trim s) = false.
Proof. intros H. apply truthy_false_iff. by apply trim_nil_iff. Qed.

End TrimFacts.

Section NumberFacts.

(** Swapping the operands of a comparison flips its result; a comparison
    with NaN has none. *)
Lemma SFcompare_swap (a b : number) :
  SFcompare a b = CompOpp <$> SFcompare b a.
Proof.
  destruct a as [sa|sa| |sa ma ea], b as [sb|sb| |sb mb eb]; simpl;
    try reflexivity; try (destruct sa, sb; reflexivity).
  rewrite (Z.compare_antisym ea eb).
  destruct sa, sb; simpl; try reflexivity;
    destruct (ea ?= eb) eqn:He; simpl; try reflexivity;
    change (PosDef.Pos.compare_cont Eq mb ma) with (Pos.compare mb ma);
    change (PosDef.Pos.compare_cont Eq ma mb) with (Pos.compare ma mb);
    rewrite (Pos.compare_antisym ma mb); destruct (ma ?= mb)%positive; reflexivity.
Qed.

(** Among numbers other than NaN, [>=] fails only where [<] holds. *)
Lemma ge_false_lt (s c : number) :
  s ≠ NaN → c ≠ NaN → ge s c = false → lt s c = true.
Proof.
  unfold ge, lt, SFleb, SFltb. intros Hs Hc.
  rewrite (SFcompare_swap s c).
  destruct (SFcompare c s) as [[]|] eqn:E; simpl; try done.
  destruct s, c; simpl in E; try done.
Qed.

Lemma lt_ge_false (s c : number) : lt s c = true → ge s c = false.
Proof.
  unfold ge, lt, SFleb, SFltb. rewrite (SFcompare_swap s c).
  by destruct (SFcompare c s) as [[]|].
Qed.

(** Below the lower threshold is below the upper one. *)
Lemma lt_0_7_lt_0_9 (s : number) :
  lt s Lit.n0_7 = true → ge s Lit.n0_9 = false.
Proof.
  unfold lt, ge, SFltb, SFleb, Lit.n0_7, Lit.n0_9.
  destruct s as [sg|sg| |sg m e]; cbn [SFcompare];
    try (intros; reflexivity); try (destruct sg; (reflexivity || discriminate)).
  destruct sg; [reflexivity|].
  rewrite (Z.compare_antisym e (-53)).
  destruct (e ?= -53); cbn [CompOpp]; try discriminate; try reflexivity.
  destruct (PosDef.Pos.compare_cont Eq m 6305039478318694) eqn:E7;
    try discriminate.
  intros _.
  destruct (PosDef.Pos.compare_cont Eq 8106479329266893 m) eqn:E9;
    try reflexivity; exfalso.
  - apply Pos.compare_eq in E9. subst m. vm_compute in E7. discriminate.
  - pose proof (Pos.lt_trans _ _ _ E9 E7) as Habs.
    vm_compute in Habs. discriminate.
Qed.

End NumberFacts.

(** ** [getMatchScoreColor] *)

Section MatchScoreColor.

Import Utils.

Lemma colors_distinct :
  utf16 "bg-green-500" ≠ utf16 "bg-yellow-500"
  ∧ utf16 "bg-green-500" ≠ utf16 "bg-red-500"
  ∧ utf16 "bg-yellow-500" ≠ utf16 "bg-red-500".
Proof. repeat split; vm_compute; discriminate. Qed.

Lemma color_green (s : number) :
  getMatchScoreColor s = utf16 "bg-green-500" ↔ ge s Lit.n0_9 = true.
Proof.
  destruct colors_distinct as (Hgy & Hgr & Hyr).
  unfold getMatchScoreColor.
  destruct (ge s Lit.n0_9); [done|].
  destruct (ge s Lit.n0_7); split; (discriminate || congruence).
Qed.

Lemma color_yellow (s : number) :
  getMatchScoreColor s = utf16 "bg-yellow-500"
  ↔ ge s Lit.n0_7 = true ∧ lt s Lit.n0_9 = true.
Proof.
  destruct colors_distinct as (Hgy & Hgr & Hyr).
  unfold getMatchScoreColor.
  destruct (ge s Lit.n0_9) eqn:H9.
  - split; [congruence|]. intros [_ Hlt].
    apply lt_ge_false in Hlt. congruence.
  - destruct (ge s Lit.n0_7) eqn:H7.
    + split; [|done]. intros _. split; [done|].
      apply ge_false_lt; [|discriminate|done].
      intros ->. discriminate H7.
    + split; [congruence|]. intros [? _]. discriminate.
Qed.

Lemma color_red (s : number) :
  getMatchScoreColor s = utf16 "bg-red-500"
  ↔ lt s Lit.n0_7 = true ∨ s = NaN.
Proof.
  destruct colors_distinct as (Hgy & Hgr & Hyr).
  unfold getMatchScoreColor.
  destruct (ge s Lit.n0_9) eqn:H9.
  - split; [congruence|]. intros [Hlt| ->]; [|discriminate H9].
    apply lt_0_7_lt_0_9 in Hlt. congruence.
  - destruct (ge s Lit.n0_7) eqn:H7.
    + split; [congruence|]. intros [Hlt| ->]; [|discriminate H7].
      apply lt_ge_false in Hlt. congruence.
    + split; [|done]. intros _.
      assert (s = NaN ∨ s ≠ NaN) as [->|Hs]
        by (destruct s; (by left) || (by right)).
      { by right. }
      left. apply ge_false_lt; [done|discriminate|done].
Qed.

(** C8, as the code has it: for every number [s], [getMatchScoreColor s]
    is ['bg-green-500'] exactly when [s >= 0.9], ['bg-yellow-500'] exactly
    when [0.7 <= s < 0.9], and ['bg-red-500'] exactly when [s < 0.7] or
    [s] is NaN, the one number that no comparison orders. *)
Theorem getMatchScoreColor_cases (s : number) :
  (getMatchScoreColor s = utf16 "bg-green-500" ↔ ge s Lit.n0_9 = true)
  ∧ (getMatchScoreColor s = utf16 "bg-yellow-500"
     ↔ le Lit.n0_7 s = true ∧ lt s Lit.n0_9 = true)
  ∧ (getMatchScoreColor s = utf16 "bg-red-500"
     ↔ lt s Lit.n0_7 = true ∨ s = NaN).
Proof.
  split; [apply color_green|]. split; [apply color_yellow|apply color_red].
Qed.

(** C8 at NaN: the colour is red although [NaN < 0.7] is false. *)
Lemma getMatchScoreColor_NaN :
  getMatchScoreColor NaN = utf16 "bg-red-500" ∧ lt NaN Lit.n0_7 = false.
Proof. split; reflexivity. Qed.

End MatchScoreColor.

(** ** The booking page: recommendations *)

Section Recommend.

Import BookingPage Ranking.

Lemma handleSubmit_rejects (s : State) :
  truthy (trim (inputText s)) = false →
  settle fire handleSubmit s = (s, [ToastError (utf16 "请输入会议需求")]).
Proof.
  intros H. unfold settle, run, handleSubmit, mbind, handler_bind, gets.
  by rewrite H.
Qed.

Lemma handleSubmit_accepts (s : State) :
  truthy (trim (inputText s)) = true →
  ∃ s', settle fire handleSubmit s
        = (s', [SetTimeout SubmitTimer 2000;
                ToastSuccess (utf16 "已识别您的需求，为您推荐会议室")])
    ∧ intent s' = Some mockIntent
    ∧ recommendations s' = mockRecommendations
    ∧ isProcessing s' = false
    ∧ inputText s' = inputText s.
Proof.
  intros H. unfold settle, run, handleSubmit, mbind, handler_bind, gets.
  rewrite H. eexists. split; [reflexivity|]. repeat split.
Qed.

Lemma recommend_rejects (s : State) :
  truthy (trim (inputText s)) = false →
  recommend s = ValidationError (utf16 "请输入会议需求").
Proof.
  intros H. unfold recommend. by rewrite (handleSubmit_rejects s H).
Qed.

Lemma recommend_accepts (s : State) :
  truthy (trim (inputText s)) = true →
  recommend s = Recommended mockRecommendations.
Proof.
  intros H. unfold recommend.
  destruct (handleSubmit_accepts s H) as (s' & -> & _ & -> & _). done.
Qed.

End Recommend.

Section RecommendClaims.

Import BookingPage Ranking.

(** C2, as the code has it: for every accepted request the recommendations
    produced by [handleSubmit] are the rooms A301, A305, B201 with the
    scores 0.92, 0.75, 0.88, in this order: ascending by room identifier,
    whatever the scores. *)
Theorem recommendations_by_room (s : State) :
  truthy (trim (inputText s)) = true →
  ∃ recs,
    recommend s = Recommended recs
    ∧ room_id <$> recs = [utf16 "A301"; utf16 "A305"; utf16 "B201"]
    ∧ match_score <$> recs = [Lit.n0_92; Lit.n0_75; Lit.n0_88]
    ∧ ascending_by_room recs = true.
Proof.
  intros H. exists mockRecommendations.
  split; [by apply recommend_accepts|].
  repeat split; vm_compute; reflexivity.
Qed.

Lemma recommendations_by_room_witness :
  ∃ recs,
    recommend (Sample.typed Sample.request) = Recommended recs
    ∧ room_id <$> recs = [utf16 "A301"; utf16 "A305"; utf16 "B201"]
    ∧ match_score <$> recs = [Lit.n0_92; Lit.n0_75; Lit.n0_88]
    ∧ ascending_by_room recs = true.
Proof.
  apply (recommendations_by_room (Sample.typed Sample.request)).
  vm_compute. reflexivity.
Defined.

(** C2 at the placeholder request: the list that comes back is not sorted
    descending by match score, A305 (0.75) stands before B201 (0.88). *)
Lemma recommendations_not_ranked :
  recommend (Sample.typed Sample.request) = Recommended mockRecommendations
  ∧ ranked mockRecommendations = false
  ∧ lt Lit.n0_75 Lit.n0_88 = true.
Proof. repeat split; vm_compute; reflexivity. Qed.

(** C3: for every accepted request the page shows the Scenario A intent
    (10 participants, building A, video conferencing, 15:00) and the
    recommendations include A301, capacity 12, with video conferencing and
    a whiteboard, a match score above 0.9 and no deviation. *)
Theorem scenario_A (s : State) :
  truthy (trim (inputText s)) = true →
  intent (submitted s)
  = Some {| datetime := utf16 "2025-01-15T15:00:00";
            participants := 10;
            location := utf16 "A栋";
            requirements := [utf16 "视频会议"] |}
  ∧ ∃ recs r,
      recommend s = Recommended recs
      ∧ recommendations (submitted s) = recs
      ∧ r ∈ recs
      ∧ room_id r = utf16 "A301"
      ∧ capacity r = 12
      ∧ utf16 "视频会议" ∈ equipment r
      ∧ utf16 "白板" ∈ equipment r
      ∧ gt (match_score r) Lit.n0_9 = true
      ∧ deviation r = [].
Proof.
  intros H. unfold submitted.
  destruct (handleSubmit_accepts s H) as (s' & -> & Hi & Hr & _).
  split; [exact Hi|].
  exists mockRecommendations.
  eexists. split; [by apply recommend_accepts|].
  split; [exact Hr|].
  split; [apply list_elem_of_here|].
  repeat split; try (vm_compute; reflexivity).
  - apply list_elem_of_here.
  - apply list_elem_of_further, list_elem_of_here.
Qed.

Lemma scenario_A_witness :
  ∃ r,
    r ∈ recommendations (submitted (Sample.typed Sample.request))
    ∧ room_id r = utf16 "A301"
    ∧ gt (match_score r) Lit.n0_9 = true
    ∧ deviation r = [].
Proof.
  destruct (scenario_A (Sample.typed Sample.request))
    as (_ & recs & r & _ & Hr & Hin & Hid & _ & _ & _ & Hs & Hd).
  - vm_compute. reflexivity.
  - exists r. rewrite Hr. repeat split; assumption.
Defined.

(** C4: every recommendation that comes back has a match score between
    0.0 and 1.0. *)
Theorem match_score_bounded (s : State) (recs : list RoomRecommendation) :
  recommend s = Recommended recs →
  Forall (λ r, le Lit.n0_0 (match_score r) = true
               ∧ le (match_score r) Lit.n1_0 = true) recs.
Proof.
  destruct (truthy (trim (inputText s))) eqn:H.
  - rewrite (recommend_accepts s H). intros [= <-].
    repeat constructor.
  - rewrite (recommend_rejects s H). discriminate.
Qed.

Lemma match_score_bounded_witness :
  Forall (λ r, le Lit.n0_0 (match_score r) = true
               ∧ le (match_score r) Lit.n1_0 = true) mockRecommendations.
Proof.
  apply (match_score_bounded (Sample.typed Sample.request)).
  vm_compute. reflexivity.
Defined.

(** C5: two submissions of the same request come back with the same
    outcome, the same rooms in the same order with the same scores,
    whatever else the page holds. *)
Theorem recommend_deterministic (s1 s2 : State) :
  inputText s1 = inputText s2 →
  recommend s1 = recommend s2.
Proof.
  intros Heq.
  destruct (truthy (trim (inputText s1))) eqn:H1.
  - rewrite (recommend_accepts s1 H1).
    rewrite Heq in H1. by rewrite (recommend_accepts s2 H1).
  - rewrite (recommend_rejects s1 H1).
    rewrite Heq in H1. by rewrite (recommend_rejects s2 H1).
Qed.

Lemma recommend_deterministic_witness :
  Sample.typed Sample.request ≠ Sample.revisited Sample.request
  ∧ recommend (Sample.typed Sample.request)
    = recommend (Sample.revisited Sample.request).
Proof.
  split.
  - intros Heq. apply (f_equal showBookingModal) in Heq.
    vm_compute in Heq. discriminate.
  - apply (recommend_deterministic (Sample.typed Sample.request)
             (Sample.revisited Sample.request)).
    vm_compute. reflexivity.
Defined.

(** C7: an empty or whitespace-only input makes the submission fail with
    the validation error, schedules nothing and leaves every cell of the
    page, the intent and the recommendations among them, as it was. *)
Theorem blank_request_rejected (s : State) :
  forallb isWhiteSpace (inputText s) = true →
  recommend s = ValidationError (utf16 "请输入会议需求")
  ∧ settle fire handleSubmit s
    = (s, [ToastError (utf16 "请输入会议需求")])
  ∧ intent (submitted s) = intent s
  ∧ recommendations (submitted s) = recommendations s.
Proof.
  intros H. apply blank_falsy in H.
  split; [by apply recommend_rejects|].
  unfold submitted. rewrite (handleSubmit_rejects s H). done.
Qed.

Lemma blank_request_rejected_witness :
  recommend (Sample.revisited Sample.blanks)
  = ValidationError (utf16 "请输入会议需求")
  ∧ recommendations (submitted (Sample.revisited Sample.blanks))
    = mockRecommendations.
Proof.
  destruct (blank_request_rejected (Sample.revisited Sample.blanks))
    as (Hr & _ & _ & Hk).
  - vm_compute. reflexivity.
  - split; [exact Hr|]. rewrite Hk. vm_compute. reflexivity.
Defined.

End RecommendClaims.

(** ** The row types: status enumerations *)

Section StatusEnumerations.

Import Supabase.

(** C6, as the code has it: the status of every [MeetingRoom] is one of
    ['available'] and ['booked'], and the status of every [Meeting] is one
    of ['booked'] and ['cancelled']. *)
Theorem status_enumerations :
  (∀ r : MeetingRoom.t,
     MeetingRoom.status_string (MeetingRoom.status r)
     ∈ [utf16 "available"; utf16 "booked"])
  ∧ (∀ m : Meeting.t,
       Meeting.status_string (Meeting.status m)
       ∈ [utf16 "booked"; utf16 "cancelled"]).
Proof.
  split.
  - intros [? ? ? ? ? [] ? ?]; cbn [MeetingRoom.status MeetingRoom.status_string].
    + apply list_elem_of_here.
    + apply list_elem_of_further, list_elem_of_here.
  - intros [? ? ? ? ? ? [] ? ?]; cbn [Meeting.status Meeting.status_string].
    + apply list_elem_of_here.
    + apply list_elem_of_further, list_elem_of_here.
Qed.

(** C6 at the room A301: its status is ['available'], which is neither
    ['active'] nor ['retired']. *)
Lemma room_status_not_lifecycle :
  MeetingRoom.status_string (MeetingRoom.status Sample.room_A301)
  = utf16 "available"
  ∧ MeetingRoom.status_string (MeetingRoom.status Sample.room_A301)
    ∉ [utf16 "active"; utf16 "retired"].
Proof.
  split; [reflexivity|].
  intros Hin.
  repeat (apply elem_of_cons in Hin as [Hin|Hin];
          [vm_compute in Hin; discriminate Hin|]).
  by apply not_elem_of_nil in Hin.
Qed.

End StatusEnumerations.

(** ** The task board *)

Section Tasks.

Import TasksPage.

Lemma updateTaskStatus_tasks (s : State) taskId newStatus :
  tasks (run (updateTaskStatus taskId newStatus) s).1
  = (λ task, if decide (id task = taskId)
             then with_status task newStatus else task) <$> tasks s.
Proof. reflexivity. Qed.

(** C9: [updateTaskStatus] keeps the length and the order of the task
    list, leaves every task with another id as it is, changes nothing but
    the status of a task with the given id, and leaves the list as it is
    when no task has the given id. *)
Theorem updateTaskStatus_frame (s : State) (taskId : jsstring)
    (newStatus : TaskStatus) :
  let s' := (run (updateTaskStatus taskId newStatus) s).1 in
  length (tasks s') = length (tasks s)
  ∧ id <$> tasks s' = id <$> tasks s
  ∧ (∀ i t, tasks s !! i = Some t → id t ≠ taskId →
       tasks s' !! i = Some t)
  ∧ (∀ i t, tasks s !! i = Some t → id t = taskId →
       ∃ t', tasks s' !! i = Some t'
             ∧ status t' = newStatus
             ∧ id t' = id t
             ∧ description t' = description t
             ∧ owner t' = owner t
             ∧ department t' = department t
             ∧ due_date t' = due_date t)
  ∧ ((∀ t, t ∈ tasks s → id t ≠ taskId) → tasks s' = tasks s).
Proof.
  intros s'. subst s'. rewrite updateTaskStatus_tasks.
  split; [apply length_fmap|].
  split.
  { rewrite <- list_fmap_compose. apply list_fmap_ext.
    intros _ t _. simpl. by destruct (decide (id t = taskId)). }
  split.
  { intros i t Hi Hne. rewrite list_lookup_fmap, Hi. simpl.
    by destruct (decide (id t = taskId)). }
  split.
  { intros i t Hi He. rewrite list_lookup_fmap, Hi. simpl.
    destruct (decide (id t = taskId)); [|done].
    eexists. split; [reflexivity|]. by repeat split. }
  intros Hno. induction (tasks s) as [|t l IH]; [done|].
  rewrite fmap_cons. f_equal.
  - destruct (decide (id t = taskId)) as [He|]; [|done].
    exfalso. apply (Hno t); [apply list_elem_of_here|done].
  - apply IH. intros t' Hin. apply Hno. by apply list_elem_of_further.
Qed.

Lemma updateTaskStatus_frame_witness :
  let s' := (run (updateTaskStatus (utf16 "2") done) initial).1 in
  tasks s' !! 0%nat = mockTasks !! 0%nat
  ∧ (status <$> tasks s' !! 1%nat) = Some done
  ∧ (owner <$> tasks s' !! 1%nat) = Some (utf16 "李四")
  ∧ (run (updateTaskStatus (utf16 "6") done) initial).1 = initial.
Proof.
  intros s'.
  destruct (updateTaskStatus_frame initial (utf16 "2") done)
    as (_ & _ & Hother & Hsame & _).
  destruct (updateTaskStatus_frame initial (utf16 "6") done)
    as (_ & _ & _ & _ & Hnone).
  split.
  { subst s'. rewrite (Hother 0%nat _ eq_refl); [reflexivity|].
    vm_compute. discriminate. }
  split.
  { destruct (Hsame 1%nat _ eq_refl) as (t' & Ht & Hst & _).
    - vm_compute. reflexivity.
    - subst s'. rewrite Ht. simpl. by rewrite Hst. }
  split.
  { destruct (Hsame 1%nat _ eq_refl) as (t' & Ht & _ & _ & _ & Ho & _).
    - vm_compute. reflexivity.
    - subst s'. rewrite Ht. simpl. rewrite Ho. vm_compute. reflexivity. }
  assert (Hfree : ∀ t, t ∈ tasks initial → id t ≠ utf16 "6").
  { intros t Hin. unfold initial, tasks, mockTasks in Hin.
    repeat (apply elem_of_cons in Hin as [->|Hin];
            [vm_compute; discriminate|]).
    by apply not_elem_of_nil in Hin. }
  specialize (Hnone Hfree).
  destruct ((run (updateTaskStatus (utf16 "6") done) initial).1) as [ts].
  simpl in Hnone. by rewrite Hnone.
Defined.

End Tasks.

(** ** The settings page *)

Section Settings.

Import SettingsPage.

(** C10: when the username or the department of the new user is empty,
    [handleAddUser] leaves every cell of the page as it is and shows an
    error; otherwise it appends one user with the given username, role and
    department to the users, which are otherwise kept, and shows no
    error. *)
Theorem handleAddUser_atomic (now : N) (s : State) :
  let nu := newUser s in
  let r := run (handleAddUser now) s in
  (NewUser.username nu = [] ∨ NewUser.department nu = [] →
     r = (s, [ToastError (utf16 "请填写完整信息")]))
  ∧ (NewUser.username nu ≠ [] → NewUser.department nu ≠ [] →
       ∃ u, users r.1 = users s ++ [u]
            ∧ User.username u = NewUser.username nu
            ∧ User.role u = NewUser.role nu
            ∧ User.department u = NewUser.department nu
            ∧ User.id u = toString now
            ∧ errors r.2 = []).
Proof.
  intros nu r. subst nu r.
  unfold run, handleAddUser, mbind, handler_bind, gets.
  destruct (newUser s) as [un rl dp] eqn:Hnu.
  cbn [NewUser.username NewUser.department NewUser.role].
  split.
  - intros [-> | ->]; [done|].
    by destruct un.
  - intros Hu Hd. destruct un as [|? ?]; [done|].
    destruct dp as [|? ?]; [done|].
    eexists. split; [reflexivity|]. by repeat split.
Qed.

Lemma handleAddUser_atomic_witness :
  run (handleAddUser 1736930000000) Sample.half_filled
  = (Sample.half_filled, [ToastError (utf16 "请填写完整信息")])
  ∧ ∃ u, users (run (handleAddUser 1736930000000) Sample.filled).1
         = mockUsers ++ [u]
         ∧ User.username u = utf16 "赵六"
         ∧ User.id u = utf16 "1736930000000".
Proof.
  split.
  - apply (handleAddUser_atomic 1736930000000 Sample.half_filled).
    right. reflexivity.
  - destruct (handleAddUser_atomic 1736930000000 Sample.filled)
      as (_ & Hok).
    destruct Hok as (u & Hus & Hun & _ & _ & Hid & _).
    + vm_compute. discriminate.
    + vm_compute. discriminate.
    + exists u. split; [exact Hus|]. split; [exact Hun|].
      rewrite Hid. vm_compute. reflexivity.
Defined.

End Settings.

(** ** The booking engine: no double booking *)

Section EngineInvariant.

Import Engine.

Lemma overlap_sym (a b : TimeRange) : overlap a b = overlap b a.
Proof. unfold overlap. apply andb_comm. Qed.

(** Half-open intervals: a range that starts where another ends does not
    overlap it. *)
Lemma overlap_adjacent (a b : TimeRange) :
  finish a = start b → well_formed a = true → well_formed b = true →
  overlap a b = false.
Proof.
  unfold overlap, well_formed. intros He Ha Hb.
  apply andb_false_iff. right. lia.
Qed.

Lemma isFree_sound (idx : Index) r rg e :
  isFree idx r rg = true → e ∈ idx !!! r → overlap e.1 rg = false.
Proof.
  unfold isFree. intros Hfree Hin.
  rewrite forallb_forall in Hfree.
  apply negb_true_iff, Hfree. by apply list_elem_of_In.
Qed.

Lemma reserve_keeps (idx : Index) r rg b r' e :
  e ∈ idx !!! r' → e ∈ reserve idx r rg b !!! r'.
Proof.
  unfold reserve. intros Hin.
  destruct (decide (r = r')) as [->|Hne].
  - rewrite lookup_total_insert_eq. by apply list_elem_of_further.
  - by rewrite lookup_total_insert_ne.
Qed.

Lemma reserve_holds (idx : Index) r rg b :
  (rg, b) ∈ reserve idx r rg b !!! r.
Proof.
  unfold reserve. rewrite lookup_total_insert_eq. apply list_elem_of_here.
Qed.

Lemma release_keeps (idx : Index) r rg b r' rg' b' :
  b' ≠ b → (rg', b') ∈ idx !!! r' → (rg', b') ∈ release idx r rg b !!! r'.
Proof.
  unfold release. intros Hb Hin.
  destruct (decide (r = r')) as [->|Hne].
  - rewrite lookup_total_insert_eq. apply list_elem_of_filter.
    split; [|done]. intros [= _ ?]. done.
  - by rewrite lookup_total_insert_ne.
Qed.

Lemma boot_consistent cat : consistent (boot cat).
Proof.
  split.
  - intros i b. unfold boot. cbn [bookings]. by rewrite lookup_empty.
  - intros i j b1 b2 _. unfold boot. cbn [bookings]. by rewrite lookup_empty.
Qed.

Lemma book_consistent r rg org ttl (s : State) id s' :
  consistent s → book r rg org ttl s = inr (id, s') → consistent s'.
Proof.
  intros [Hidx Hdis]. unfold book.
  destruct (well_formed rg); [|discriminate]. cbn [negb].
  destruct (get (catalog s) r); [discriminate|].
  destruct (isFree (index s) r rg) eqn:Hfree;
    [|by destruct (conflict _ _ _) as [[]|]].
  intros [= <- <-].
  assert (Hfresh : bookings s !! fresh (dom (bookings s)) = None).
  { apply not_elem_of_dom. apply is_fresh. }
  set (id := fresh (dom (bookings s))) in *.
  assert (Hnew : ∀ j b, j ≠ id → bookings s !! j = Some b →
            status b = booked → room b = r →
            overlap rg (range b) = false).
  { intros j b _ Hj Hst <-. rewrite overlap_sym.
    apply (isFree_sound _ _ _ (range b, j) Hfree). by apply Hidx. }
  split.
  - intros i b. cbn [bookings index].
    destruct (decide (i = id)) as [->|Hne].
    + rewrite lookup_insert_eq. intros [= <-] _. apply reserve_holds.
    + rewrite lookup_insert_ne by done. intros Hi Hst.
      apply reserve_keeps. by apply Hidx.
  - intros i j b1 b2 Hij. cbn [bookings].
    destruct (decide (i = id)) as [->|Hi]; destruct (decide (j = id)) as [->|Hj];
      try done; rewrite ?lookup_insert_eq, ?lookup_insert_ne by done.
    + intros [= <-] H2 _ Hst Hroom. by apply (Hnew j b2).
    + intros H1 [= <-] Hst _ Hroom. rewrite overlap_sym.
      by apply (Hnew i b1).
    + by apply Hdis.
Qed.

Lemma cancel_consistent id (s s' : State) :
  consistent s → cancel id s = inr s' → consistent s'.
Proof.
  intros [Hidx Hdis]. unfold cancel.
  destruct (bookings s !! id) as [b|] eqn:Hb; [|discriminate].
  destruct (status b) eqn:Hst; intros [= <-]; [|done].
  split.
  - intros i bi. cbn [bookings index].
    destruct (decide (i = id)) as [->|Hne].
    + rewrite lookup_insert_eq. intros [= <-]. discriminate.
    + rewrite lookup_insert_ne by done. intros Hi Hsti.
      apply release_keeps; [done|]. by apply Hidx.
  - intros i j b1 b2 Hij. cbn [bookings].
    destruct (decide (i = id)) as [->|Hi].
    { rewrite lookup_insert_eq. intros [= <-] _. discriminate. }
    destruct (decide (j = id)) as [->|Hj].
    { rewrite lookup_insert_eq. intros _ [= <-] _. discriminate. }
    rewrite !lookup_insert_ne by done. by apply Hdis.
Qed.

Lemma alter_consistent id rg (s s' : State) :
  consistent s → alter id rg s = inr s' → consistent s'.
Proof.
  intros [Hidx Hdis]. unfold alter.
  destruct (bookings s !! id) as [b|] eqn:Hb; [|discriminate].
  destruct (well_formed rg); [|discriminate]. cbn [negb].
  destruct (status b) eqn:Hst; [|discriminate].
  set (released := release (index s) (room b) (range b) id).
  destruct (isFree released (room b) rg) eqn:Hfree;
    [|by destruct (conflict _ _ _) as [[]|]].
  intros [= <-].
  assert (Hnew : ∀ j bj, j ≠ id → bookings s !! j = Some bj →
            status bj = booked → room bj = room b →
            overlap rg (range bj) = false).
  { intros j bj Hj Hbj Hstj Hroom. rewrite overlap_sym.
    apply (isFree_sound _ _ _ (range bj, j) Hfree).
    rewrite <- Hroom. apply release_keeps; [done|]. by apply Hidx. }
  split.
  - intros i bi. cbn [bookings index].
    destruct (decide (i = id)) as [->|Hne].
    + rewrite lookup_insert_eq. intros [= <-] _. apply reserve_holds.
    + rewrite lookup_insert_ne by done. intros Hi Hsti.
      apply reserve_keeps, release_keeps; [done|]. by apply Hidx.
  - intros i j b1 b2 Hij. cbn [bookings].
    destruct (decide (i = id)) as [->|Hi]; destruct (decide (j = id)) as [->|Hj];
      try done; rewrite ?lookup_insert_eq, ?lookup_insert_ne by done.
    + intros [= <-] H2 _ Hst2 Hroom. by apply (Hnew j b2).
    + intros H1 [= <-] Hst1 _ Hroom. rewrite overlap_sym.
      by apply (Hnew i b1).
    + by apply Hdis.
Qed.

Lemma exec_consistent op (s : State) :
  consistent s → consistent (exec op s).
Proof.
  intros Hs. unfold exec, apply. destruct op as [r rg org ttl|id|id rg].
  - destruct (book r rg org ttl s) as [|[id s']] eqn:Hop; [done|].
    by eapply book_consistent.
  - destruct (cancel id s) as [|s'] eqn:Hop; [done|].
    by eapply cancel_consistent.
  - destruct (alter id rg s) as [|s'] eqn:Hop; [done|].
    by eapply alter_consistent.
Qed.

Lemma step_consistent (s : System.t) ev :
  consistent (System.engine s) →
  consistent (System.engine (System.step s ev)).
Proof.
  intros Hs. destruct ev; cbn [System.step System.engine]; try done.
  by apply exec_consistent.
Qed.

Lemma run_consistent evs (s : System.t) :
  consistent (System.engine s) →
  consistent (System.engine (System.run evs s)).
Proof.
  revert s. induction evs as [|ev evs IH]; intros s Hs; [done|].
  apply IH. by apply step_consistent.
Qed.

End EngineInvariant.

Section Reachable.

Import Engine.

(** The booking flow of the page does not reach the engine. *)
Lemma confirmBooking_leaves_engine (s : System.t) :
  System.engine (System.step s System.ConfirmBooking) = System.engine s.
Proof. reflexivity. Qed.

(** Scenario B: of the three requests the first and the third are
    granted. *)
Example scenario_B_bookings :
  (λ '(i, b), (i, range b, status b))
    <$> map_to_list
          (bookings (System.engine
                       (System.run Sample.scenario_B
                                   (System.boot Sample.catalog))))
  = [(1%nat, Sample.slot 10 0 11 0, booked);
     (0%nat, Sample.slot 9 0 10 0, booked)].
Proof. vm_compute. reflexivity. Qed.

(** Scenario C: the alteration that conflicts changes nothing. *)
Example scenario_C_unchanged :
  System.engine (System.run Sample.scenario_C (System.boot Sample.catalog))
  = System.engine (System.run Sample.scenario_B (System.boot Sample.catalog)).
Proof. vm_compute. reflexivity. Qed.

(** C1: in every state reached from an empty booking store by any
    sequence of book, cancel and alter requests and of actions on the
    booking page, [confirmBooking] among them, the ranges of the bookings
    with status booked of one room are pairwise non-overlapping. *)
Theorem booked_ranges_disjoint (cat : gmap RoomId Room)
    (evs : list System.Event) :
  no_double_booking (System.engine (System.run evs (System.boot cat))).
Proof.
  apply (run_consistent evs (System.boot cat)).
  apply boot_consistent.
Qed.

Lemma booked_ranges_disjoint_witness :
  ∃ b0 b1,
    bookings (System.engine
                (System.run Sample.scenario_B (System.boot Sample.catalog)))
      !! 0%nat = Some b0
    ∧ bookings (System.engine
                  (System.run Sample.scenario_B (System.boot Sample.catalog)))
        !! 1%nat = Some b1
    ∧ overlap (range b0) (range b1) = false.
Proof.
  eexists. eexists.
  split; [vm_compute; reflexivity|].
  split; [vm_compute; reflexivity|].
  apply (booked_ranges_disjoint Sample.catalog Sample.scenario_B 0%nat 1%nat);
    (done || (vm_compute; reflexivity)).
Defined.

End Reachable.

(* ===================================================================== *)
(** * Further properties of the front end *)
(* ===================================================================== *)

(** String literals are compared after they are evaluated to their code
    units. *)
Ltac lits :=
  repeat match goal with
  | |- context [utf16 ?s] =>
    let v := eval vm_compute in (utf16 s) in change (utf16 s) with v
  end.

(** ** The order on numbers *)

Section NumberOrder.

Lemma pos_cont_cases (p q : positive) :
  match PosDef.Pos.compare_cont Eq p q with
  | Eq => p = q
  | Lt => (p < q)%positive
  | Gt => (q < p)%positive
  end.
Proof.
  destruct (PosDef.Pos.compare_cont Eq p q) eqn:E.
  - by apply Pos.compare_eq.
  - exact E.
  - by apply Pos.gt_lt_iff.
Qed.

Lemma SFleb_pos m1 e1 m2 e2 :
  SFleb (S754_finite false m1 e1) (S754_finite false m2 e2) = true
  ↔ e1 < e2 ∨ e1 = e2 ∧ (m1 <= m2)%positive.
Proof.
  unfold SFleb. cbn [SFcompare].
  pose proof (pos_cont_cases m1 m2) as Hm.
  destruct (Z.compare_spec e1 e2); [|split; (done || lia)|split; (done || lia)].
  destruct (PosDef.Pos.compare_cont Eq m1 m2); split; (done || lia).
Qed.

Lemma SFleb_neg m1 e1 m2 e2 :
  SFleb (S754_finite true m1 e1) (S754_finite true m2 e2) = true
  ↔ e2 < e1 ∨ e1 = e2 ∧ (m2 <= m1)%positive.
Proof.
  unfold SFleb. cbn [SFcompare].
  pose proof (pos_cont_cases m1 m2) as Hm.
  destruct (Z.compare_spec e1 e2); [|split; (done || lia)|split; (done || lia)].
  destruct (PosDef.Pos.compare_cont Eq m1 m2); split; (done || lia).
Qed.

Lemma SFltb_pos m1 e1 m2 e2 :
  SFltb (S754_finite false m1 e1) (S754_finite false m2 e2) = true
  ↔ e1 < e2 ∨ e1 = e2 ∧ (m1 < m2)%positive.
Proof.
  unfold SFltb. cbn [SFcompare].
  pose proof (pos_cont_cases m1 m2) as Hm.
  destruct (Z.compare_spec e1 e2); [|split; (done || lia)|split; (done || lia)].
  destruct (PosDef.Pos.compare_cont Eq m1 m2); split; (done || lia).
Qed.

Lemma SFltb_neg m1 e1 m2 e2 :
  SFltb (S754_finite true m1 e1) (S754_finite true m2 e2) = true
  ↔ e2 < e1 ∨ e1 = e2 ∧ (m2 < m1)%positive.
Proof.
  unfold SFltb. cbn [SFcompare].
  pose proof (pos_cont_cases m1 m2) as Hm.
  destruct (Z.compare_spec e1 e2); [|split; (done || lia)|split; (done || lia)].
  destruct (PosDef.Pos.compare_cont Eq m1 m2); split; (done || lia).
Qed.

Ltac float_order :=
  intros;
  repeat match goal with
  | H : SFleb (S754_finite false _ _) (S754_finite false _ _) = true |- _ =>
    apply SFleb_pos in H
  | H : SFleb (S754_finite true _ _) (S754_finite true _ _) = true |- _ =>
    apply SFleb_neg in H
  | H : SFltb (S754_finite false _ _) (S754_finite false _ _) = true |- _ =>
    apply SFltb_pos in H
  | H : SFltb (S754_finite true _ _) (S754_finite true _ _) = true |- _ =>
    apply SFltb_neg in H
  | |- SFleb (S754_finite false _ _) (S754_finite false _ _) = true =>
    apply SFleb_pos
  | |- SFleb (S754_finite true _ _) (S754_finite true _ _) = true =>
    apply SFleb_neg
  | |- SFltb (S754_finite false _ _) (S754_finite false _ _) = true =>
    apply SFltb_pos
  | |- SFltb (S754_finite true _ _) (S754_finite true _ _) = true =>
    apply SFltb_neg
  end;
  first [reflexivity | discriminate | lia].

Lemma SFleb_trans (a b c : number) :
  SFleb a b = true → SFleb b c = true → SFleb a c = true.
Proof.
  destruct a as [sa|sa| |sa ma ea], b as [sb|sb| |sb mb eb],
           c as [sc|sc| |sc mc ec];
    try destruct sa; try destruct sb; try destruct sc; float_order.
Qed.

Lemma SFleb_ltb_trans (a b c : number) :
  SFleb a b = true → SFltb b c = true → SFltb a c = true.
Proof.
  destruct a as [sa|sa| |sa ma ea], b as [sb|sb| |sb mb eb],
           c as [sc|sc| |sc mc ec];
    try destruct sa; try destruct sb; try destruct sc; float_order.
Qed.

Lemma le_not_NaN (a b : number) : le a b = true → a ≠ NaN ∧ b ≠ NaN.
Proof.
  intros H. split; intros ->; [discriminate H|].
  by destruct a as [[]|[]| |[] ? ?].
Qed.

End NumberOrder.

(** ** [lib/utils]: the colour helpers *)

Section Colours.

Import Utils.

(** X1: [getStatusColor] is green exactly for ['available'],
    ['confirmed'] and ['done'], blue exactly for ['booked'], red exactly
    for ['cancelled'], and grey for every other string, ['draft'] and
    unknown statuses alike. *)
Theorem getStatusColor_cases (status : jsstring) :
  (getStatusColor status = utf16 "bg-green-100 text-green-800"
   ↔ status ∈ [utf16 "available"; utf16 "confirmed"; utf16 "done"])
  ∧ (getStatusColor status = utf16 "bg-blue-100 text-blue-800"
     ↔ status = utf16 "booked")
  ∧ (getStatusColor status = utf16 "bg-red-100 text-red-800"
     ↔ status = utf16 "cancelled")
  ∧ (getStatusColor status = utf16 "bg-gray-100 text-gray-800"
     ↔ status ∉ [utf16 "available"; utf16 "confirmed"; utf16 "done";
                 utf16 "booked"; utf16 "cancelled"]).
Proof.
  unfold getStatusColor. lits.
  rewrite !not_elem_of_cons, !elem_of_cons, !elem_of_nil.
  repeat case_bool_decide; subst; cbn [orb];
    repeat split; intros; try discriminate; try congruence; try tauto.
  all: try (intuition congruence).
Qed.

(** X2: [getMatchScoreColor] is monotone: when [s1 <= s2], a green [s1]
    makes [s2] green and a red [s2] makes [s1] red, so a higher score
    never gets a worse colour. *)
Theorem getMatchScoreColor_monotone (s1 s2 : number) :
  le s1 s2 = true →
  (getMatchScoreColor s1 = utf16 "bg-green-500" →
   getMatchScoreColor s2 = utf16 "bg-green-500")
  ∧ (getMatchScoreColor s2 = utf16 "bg-red-500" →
     getMatchScoreColor s1 = utf16 "bg-red-500").
Proof.
  intros Hle. split.
  - rewrite !color_green. unfold ge. intros H1.
    by apply (SFleb_trans _ s1).
  - rewrite !color_red. intros [H2|H2].
    + left. by apply (SFleb_ltb_trans _ s2).
    + by destruct (le_not_NaN _ _ Hle).
Qed.

Lemma getMatchScoreColor_monotone_witness :
  getMatchScoreColor Lit.n0_92 = utf16 "bg-green-500"
  ∧ getMatchScoreColor Lit.n0_0 = utf16 "bg-red-500".
Proof.
  split.
  - apply (getMatchScoreColor_monotone Lit.n0_9 Lit.n0_92);
      vm_compute; reflexivity.
  - apply (getMatchScoreColor_monotone Lit.n0_0 (Lit.decimal 1 2));
      vm_compute; reflexivity.
Defined.

End Colours.

#[local] Arguments utf16 : simpl never.

(** ** The booking page: the booking flow *)

Section BookingFlow.
Import BookingPage.

Lemma confirmBooking_rejects (s : State) :
  truthy (trim (title (bookingForm s))) = false →
  settle fire confirmBooking s = (s, [ToastError (utf16 "请输入会议主题")]).
Proof.
  intros H. unfold settle, run, confirmBooking, mbind, handler_bind, gets.
  by rewrite H.
Qed.

(** X3: with an empty or whitespace-only meeting title [confirmBooking]
    shows an error, schedules nothing and leaves every cell of the page as
    it is: the modal stays open with the room selected. *)
Theorem blank_title_rejected (s : State) :
  forallb isWhiteSpace (title (bookingForm s)) = true →
  settle fire confirmBooking s = (s, [ToastError (utf16 "请输入会议主题")]).
Proof. intros H. by apply confirmBooking_rejects, blank_falsy. Qed.

(** X4: with a title, [confirmBooking] and its callback close the modal,
    clear the selected room, reset the form to an empty title and 60
    minutes and end processing; the input text, the intent and the
    recommendations are kept, and one success toast is shown. *)
Theorem confirmBooking_resets (s : State) :
  truthy (trim (title (bookingForm s))) = true →
  settle fire confirmBooking s
  = ({| inputText := inputText s;
        isProcessing := false;
        intent := intent s;
        recommendations := recommendations s;
        showBookingModal := false;
        selectedRoom := None;
        bookingForm := {| title := utf16 ""; duration := 60 |} |},
     [SetTimeout BookingTimer 1000;
      ToastSuccess (utf16 "会议室预定成功！")]).
Proof.
  intros H. unfold settle, run, confirmBooking, mbind, handler_bind, gets.
  rewrite H. reflexivity.
Qed.

Lemma submitted_accepts (s : State) :
  truthy (trim (inputText s)) = true →
  submitted s
  = {| inputText := inputText s;
       isProcessing := false;
       intent := Some mockIntent;
       recommendations := mockRecommendations;
       showBookingModal := showBookingModal s;
       selectedRoom := selectedRoom s;
       bookingForm := bookingForm s |}.
Proof.
  intros H.
  unfold submitted, settle, run, handleSubmit, mbind, handler_bind, gets.
  rewrite H. reflexivity.
Qed.

(** X5: submitting again what was just submitted changes nothing: the
    page after two submissions in a row is the page after one. *)
Theorem submitted_idempotent (s : State) :
  submitted (submitted s) = submitted s.
Proof.
  destruct (truthy (trim (inputText s))) eqn:H.
  - rewrite (submitted_accepts s H).
    rewrite submitted_accepts; [reflexivity|exact H].
  - unfold submitted. rewrite (handleSubmit_rejects s H). cbn [fst].
    by rewrite (handleSubmit_rejects s H).
Qed.

Lemma grows {A} (l k : list A) : l ≠ [] → l ++ k ≠ [].
Proof. by destruct l. Qed.

Lemma act_keeps_booking_page r a :
  booking_page_ok r →
  booking_page_ok (act System.handler fire r a).
Proof.
  destruct r as [s q]. unfold booking_page_ok. cbn [cells pending].
  intros (Hrec & Hmodal & Hproc).
  assert (Hq : isProcessing s = true → ∀ k : list Timer, q ++ k ≠ []).
  { intros Hp k. by apply grows, Hproc. }
  destruct a as [ev|i]; unfold act; cbn [cells pending].
  - destruct ev; unfold run, System.handler, handleSubmit, confirmBooking,
      handleBookRoom, onTitleChange, onDurationChange, mbind, handler_bind,
      gets, setInputText, setShowBookingModal, setSelectedRoom,
      setBookingForm, setIsProcessing, setTimeout, toast_error, emit, modify,
      mret, handler_ret;
      try destruct (truthy (trim (inputText s)));
      try destruct (truthy (trim (title (bookingForm s))));
      cbn;
      (split; [exact Hrec|]);
      (split; [first [exact Hmodal | by eauto | done]|]);
      first [by auto | intros _; by destruct q].
  - destruct (q !! i) as [cb|]; [|done].
    destruct cb; unfold run, fire, handleSubmit_timeout,
      confirmBooking_timeout, mbind, handler_bind, setIntent,
      setRecommendations, setShowBookingModal, setSelectedRoom,
      setBookingForm, setIsProcessing, toast_success, emit, modify; cbn.
    + split; [by right|]. done.
    + split; [done|]. done.
Qed.

(** X6: however the user's actions and the pending callbacks of the
    booking page interleave, the intent and the recommendations are unset
    together or are the mock intent with the mock recommendations, the
    booking modal is only shown with a room selected, and whenever the page
    is processing a callback that ends it is still pending. *)
Theorem booking_page_invariants (acts : list (Action System.Event)) :
  let r := play System.handler fire acts (start (Timer := Timer) initial) in
  (intent (cells r) = None ∧ recommendations (cells r) = []
   ∨ intent (cells r) = Some mockIntent
     ∧ recommendations (cells r) = mockRecommendations)
  ∧ (showBookingModal (cells r) = true → is_Some (selectedRoom (cells r)))
  ∧ (isProcessing (cells r) = true → pending r ≠ []).
Proof.
  intros r. change (booking_page_ok r). subst r.
  assert (Hstart : booking_page_ok (start (Timer := Timer) initial)).
  { unfold booking_page_ok. cbn. split; [by left|]. done. }
  revert Hstart. generalize (start (Timer := Timer) initial).
  induction acts as [|a acts IH]; intros r Hr; [done|].
  apply IH. by apply act_keeps_booking_page.
Qed.
End BookingFlow.

(** ** The task board: updates and counts *)

Section TaskBoard.
Import TasksPage.

Lemma updateTaskOwner_tasks (s : State) taskId newOwner :
  tasks (run (updateTaskOwner taskId newOwner) s).1
  = (λ task, if decide (id task = taskId)
             then with_owner task newOwner else task) <$> tasks s.
Proof. reflexivity. Qed.

Lemma state_eq (s1 s2 : State) : tasks s1 = tasks s2 → s1 = s2.
Proof. destruct s1, s2. simpl. by intros ->. Qed.

(** X7: [updateTaskOwner] keeps the length and the order of the task
    list, leaves every task with another id as it is, changes nothing but
    the owner of a task with the given id, and leaves the page as it is
    when no task has the given id. *)
Theorem updateTaskOwner_frame (s : State) (taskId newOwner : jsstring) :
  let s' := (run (updateTaskOwner taskId newOwner) s).1 in
  length (tasks s') = length (tasks s)
  ∧ id <$> tasks s' = id <$> tasks s
  ∧ (∀ i t, tasks s !! i = Some t → id t ≠ taskId →
       tasks s' !! i = Some t)
  ∧ (∀ i t, tasks s !! i = Some t → id t = taskId →
       ∃ t', tasks s' !! i = Some t'
             ∧ owner t' = newOwner
             ∧ id t' = id t
             ∧ description t' = description t
             ∧ department t' = department t
             ∧ due_date t' = due_date t
             ∧ status t' = status t)
  ∧ ((∀ t, t ∈ tasks s → id t ≠ taskId) → s' = s).
Proof.
  intros s'. subst s'. rewrite updateTaskOwner_tasks.
  split; [apply length_fmap|].
  split.
  { rewrite <- list_fmap_compose. apply list_fmap_ext.
    intros _ t _. simpl. by destruct (decide (id t = taskId)). }
  split.
  { intros i t Hi Hne. rewrite list_lookup_fmap, Hi. simpl.
    by destruct (decide (id t = taskId)). }
  split.
  { intros i t Hi He. rewrite list_lookup_fmap, Hi. simpl.
    destruct (decide (id t = taskId)); [|done].
    eexists. split; [reflexivity|]. by repeat split. }
  intros Hno. apply state_eq. rewrite updateTaskOwner_tasks.
  induction (tasks s) as [|t l IH]; [done|].
  rewrite fmap_cons. f_equal.
  - destruct (decide (id t = taskId)) as [He|]; [|done].
    exfalso. apply (Hno t); [apply list_elem_of_here|done].
  - apply IH. intros t' Hin. apply Hno. by apply list_elem_of_further.
Qed.

(** X8: a status update and an owner update commute, on the same task or
    on different ones. *)
Theorem task_updates_commute (s : State) (i j newOwner : jsstring)
    (newStatus : TaskStatus) :
  (run (updateTaskOwner j newOwner)
       (run (updateTaskStatus i newStatus) s).1).1
  = (run (updateTaskStatus i newStatus)
         (run (updateTaskOwner j newOwner) s).1).1.
Proof.
  apply state_eq.
  rewrite updateTaskOwner_tasks, !updateTaskStatus_tasks,
    updateTaskOwner_tasks, <- !list_fmap_compose.
  apply list_fmap_ext. intros _ t _. simpl.
  destruct (decide (id t = i)), (decide (id t = j)); simpl;
    repeat case_decide; done.
Qed.

(** X9: of two status updates of the same task in a row the second one
    wins: the first leaves no trace. *)
Theorem updateTaskStatus_last_wins (s : State) (taskId : jsstring)
    (st1 st2 : TaskStatus) :
  (run (updateTaskStatus taskId st2)
       (run (updateTaskStatus taskId st1) s).1).1
  = (run (updateTaskStatus taskId st2) s).1.
Proof.
  apply state_eq. rewrite !updateTaskStatus_tasks, <- list_fmap_compose.
  apply list_fmap_ext. intros _ t _. simpl.
  destruct (decide (id t = taskId)); simpl; repeat case_decide; done.
Qed.

Lemma filter_fmap_department (f : Task → Task) dept (l : list Task) :
  (∀ t, department (f t) = department t) →
  filter (λ task, department task = dept) (f <$> l)
  = f <$> filter (λ task, department task = dept) l.
Proof.
  intros Hf. induction l as [|t l IH]; [done|].
  rewrite fmap_cons, !filter_cons, Hf, IH.
  by destruct (decide (department t = dept)).
Qed.

(** X10: neither a status update nor an owner update moves a task
    between the columns of the board: every department keeps the same
    tasks in the same order, and the same badge count. *)
Theorem columns_keep_their_tasks (s : State) (taskId newOwner : jsstring)
    (newStatus : TaskStatus) (dept : jsstring) :
  id <$> getTasksByDepartment dept
           (run (updateTaskStatus taskId newStatus) s).1
  = id <$> getTasksByDepartment dept s
  ∧ id <$> getTasksByDepartment dept
             (run (updateTaskOwner taskId newOwner) s).1
    = id <$> getTasksByDepartment dept s
  ∧ columnSize dept (run (updateTaskStatus taskId newStatus) s).1
    = columnSize dept s
  ∧ columnSize dept (run (updateTaskOwner taskId newOwner) s).1
    = columnSize dept s.
Proof.
  unfold columnSize, getTasksByDepartment.
  rewrite updateTaskStatus_tasks, updateTaskOwner_tasks.
  rewrite !filter_fmap_department
    by (intros t; by destruct (decide (id t = taskId))).
  rewrite !length_fmap, <- !list_fmap_compose.
  repeat split; apply list_fmap_ext; intros _ t _; simpl;
    by destruct (decide (id t = taskId)).
Qed.

(** X11: the three figures of the summary card, confirmed, done and
    draft, add up to the total number of tasks. *)
Theorem summary_counts_add_up (s : State) :
  (countByStatus confirmed s + countByStatus done s
   + countByStatus draft s)%nat
  = length (tasks s).
Proof.
  unfold countByStatus. induction (tasks s) as [|t l IH]; [done|].
  rewrite !filter_cons. destruct (status t); simpl;
    repeat case_decide; try done; simpl; lia.
Qed.

Lemma fmap_update_other (taskId : jsstring) (f : Task → Task)
    (l : list Task) :
  (∀ t, t ∈ l → id t ≠ taskId) →
  (λ task, if decide (id task = taskId) then f task else task) <$> l = l.
Proof.
  intros Hno. induction l as [|t l IH]; [done|].
  rewrite fmap_cons. f_equal.
  - destruct (decide (id t = taskId)) as [He|]; [|done].
    exfalso. apply (Hno t); [apply list_elem_of_here|done].
  - apply IH. intros t' Hin. apply Hno. by apply list_elem_of_further.
Qed.

(** X12: when the task ids are pairwise distinct, giving a task a status
    it does not have raises the count of the new status by one, lowers the
    count of the old status by one and leaves the third count as it
    is. *)
Theorem status_change_moves_one (s : State) (i : nat) (t : Task)
    (newStatus : TaskStatus) :
  tasks s !! i = Some t →
  NoDup (id <$> tasks s) →
  status t ≠ newStatus →
  let s' := (run (updateTaskStatus (id t) newStatus) s).1 in
  countByStatus newStatus s' = S (countByStatus newStatus s)
  ∧ S (countByStatus (status t) s') = countByStatus (status t) s
  ∧ (∀ st, st ≠ newStatus → st ≠ status t →
       countByStatus st s' = countByStatus st s).
Proof.
  intros Hi Hnd Hne s'. subst s'. unfold countByStatus.
  rewrite updateTaskStatus_tasks.
  rewrite <- (take_drop_middle _ _ _ Hi) in Hnd |- *.
  set (l1 := take i (tasks s)) in *. set (l2 := drop (S i) (tasks s)) in *.
  rewrite fmap_app, fmap_cons in Hnd.
  apply NoDup_app in Hnd as (_ & Hl1 & Hnd).
  apply NoDup_cons in Hnd as (Hl2 & _).
  rewrite fmap_app, fmap_cons.
  rewrite !fmap_update_other.
  2:{ intros t' Hin He. apply Hl2. rewrite <- He. by apply list_elem_of_fmap_2. }
  2:{ intros t' Hin He. apply (Hl1 (id t')).
      - by apply list_elem_of_fmap_2.
      - rewrite He. apply list_elem_of_here. }
  destruct (decide (id t = id t)); [|done].
  rewrite !filter_app, !filter_cons, !length_app. cbn [status with_status].
  split; [|split].
  - repeat case_decide; try done; simpl; lia.
  - repeat case_decide; try done; simpl; lia.
  - intros st H1 H2. rewrite !filter_app, !filter_cons, !length_app.
    cbn [status with_status]. repeat case_decide; try done; simpl; lia.
Qed.

End TaskBoard.

(** ** Identifiers from the clock *)

Section Identifiers.

Lemma decode_ascii (l : list N) :
  Forall (λ b, (b <? 128)%N = true) l → decode l = l.
Proof.
  induction 1 as [|b l Hb _ IH]; [done|].
  simpl. by rewrite Hb, IH.
Qed.

Lemma digits_ascii (d : Decimal.uint) :
  Forall (λ b, (b <? 128)%N = true)
         (map N_of_ascii (list_ascii_of_string (NilEmpty.string_of_uint d))).
Proof.
  induction d; cbn [NilEmpty.string_of_uint list_ascii_of_string map];
    constructor; (assumption || (vm_compute; reflexivity)).
Qed.

Lemma N_of_ascii_inj (l k : list ascii) :
  map N_of_ascii l = map N_of_ascii k → l = k.
Proof.
  revert k. induction l as [|a l IH]; intros [|b k]; try done.
  intros [= Ha Hl]. f_equal; [|by apply IH].
  by rewrite <- (ascii_N_embedding a), <- (ascii_N_embedding b), Ha.
Qed.

Lemma to_uint_not_Nil (n : N) : N.to_uint n ≠ Decimal.Nil.
Proof.
  destruct n as [|p]; [done|]. simpl.
  intros H. pose proof (DecimalPos.Unsigned.of_to p) as Hp.
  rewrite H in Hp. discriminate Hp.
Qed.

Lemma toString_inj (n m : N) : toString n = toString m → n = m.
Proof.
  unfold toString, utf16. intros H.
  assert (Hnil := to_uint_not_Nil).
  assert (Hz : ∀ d, d ≠ Decimal.Nil →
    NilZero.string_of_uint d = NilEmpty.string_of_uint d) by (by intros []).
  rewrite !Hz in H by done.
  rewrite !decode_ascii in H by apply digits_ascii.
  apply N_of_ascii_inj in H.
  apply (f_equal string_of_list_ascii) in H.
  rewrite !string_of_list_ascii_of_string in H.
  apply (f_equal NilEmpty.uint_of_string) in H.
  rewrite !NilEmpty.usu in H. injection H as H.
  by apply DecimalN.Unsigned.to_uint_inj.
Qed.

End Identifiers.

(** ** The settings page: users and templates *)

Section SettingsUsers.
Import SettingsPage.

Lemma handleAddUser_accepts (now : N) (s : State) :
  NewUser.username (newUser s) ≠ [] →
  NewUser.department (newUser s) ≠ [] →
  run (handleAddUser now) s
  = ({| activeTab := activeTab s;
        users := users s ++ [{| User.id := toString now;
                                User.username := NewUser.username (newUser s);
                                User.role := NewUser.role (newUser s);
                                User.department :=
                                  NewUser.department (newUser s) |}];
        templates := templates s;
        newUser := {| NewUser.username := utf16 "";
                      NewUser.role := participant;
                      NewUser.department := utf16 "" |};
        newTemplate := newTemplate s |},
     [ToastSuccess (utf16 "用户添加成功")]).
Proof.
  intros Hu Hd.
  unfold run, handleAddUser, mbind, handler_bind, gets.
  destruct (newUser s) as [[|? ?] rl [|? ?]] eqn:Hnu; try done.
Qed.

Lemma handleDeleteUser_users (userId : jsstring) (s : State) :
  users (run (handleDeleteUser userId) s).1
  = filter (λ user, User.id user ≠ userId) (users s).
Proof. reflexivity. Qed.

Lemma filter_all {A} (P : A → Prop) `{!∀ x, Decision (P x)} (l : list A) :
  (∀ x, x ∈ l → P x) → filter P l = l.
Proof.
  intros H. induction l as [|x l IH]; [done|].
  rewrite filter_cons_True by (apply H, list_elem_of_here).
  f_equal. apply IH. intros y Hy. by apply H, list_elem_of_further.
Qed.

(** X13: [handleDeleteUser] keeps exactly the users with another id, in
    their order, and touches neither the templates nor the form; when no
    user has the id the page is unchanged, and the success toast is shown
    all the same. *)
Theorem handleDeleteUser_removes (userId : jsstring) (s : State) :
  let r := run (handleDeleteUser userId) s in
  (∀ u, u ∈ users r.1 ↔ u ∈ users s ∧ User.id u ≠ userId)
  ∧ sublist (users r.1) (users s)
  ∧ ((∀ u, u ∈ users s → User.id u ≠ userId) → r.1 = s)
  ∧ templates r.1 = templates s
  ∧ newUser r.1 = newUser s
  ∧ r.2 = [ToastSuccess (utf16 "用户删除成功")].
Proof.
  intros r. subst r. rewrite handleDeleteUser_users.
  split.
  { intros u. rewrite list_elem_of_filter. tauto. }
  split; [apply sublist_filter|].
  split; [|done].
  intros Hno. destruct s as [tab us ts nu nt].
  unfold run, handleDeleteUser, mbind, handler_bind, gets; cbn.
  f_equal. by apply filter_all.
Qed.

(** X14: deleting the user that was just added, by the id it was given,
    removes it again together with every older user of the same id; when
    no older user has that id the users are what they were before. *)
Theorem add_then_delete_user (now : N) (s : State) :
  NewUser.username (newUser s) ≠ [] →
  NewUser.department (newUser s) ≠ [] →
  let s1 := (run (handleAddUser now) s).1 in
  let s2 := (run (handleDeleteUser (toString now)) s1).1 in
  users s2 = filter (λ user, User.id user ≠ toString now) (users s)
  ∧ ((∀ u, u ∈ users s → User.id u ≠ toString now) → users s2 = users s).
Proof.
  intros Hu Hd s1 s2. subst s1 s2.
  rewrite handleDeleteUser_users, (handleAddUser_accepts now s Hu Hd).
  cbn [fst users].
  rewrite (filter_app _ (users s)).
  rewrite filter_cons_False by (cbn [User.id]; intros Hx; by apply Hx).
  rewrite filter_nil, app_nil_r.
  split; [done|]. intros Hno. by apply filter_all.
Qed.

(** X15: two users added one after the other are appended in this order;
    they get different ids when [Date.now()] differs between the two
    calls, and when it does not, deleting by the id of the second removes
    both. *)
Theorem users_added_at_different_times (now1 now2 : N) (s : State)
    (nu : NewUser.t) :
  NewUser.username (newUser s) ≠ [] →
  NewUser.department (newUser s) ≠ [] →
  NewUser.username nu ≠ [] →
  NewUser.department nu ≠ [] →
  let s1 := (run (handleAddUser now1) s).1 in
  let s2 := (run (setNewUser nu) s1).1 in
  let s3 := (run (handleAddUser now2) s2).1 in
  ∃ u1 u2,
    users s3 = users s ++ [u1; u2]
    ∧ (now1 ≠ now2 → User.id u1 ≠ User.id u2)
    ∧ (now1 = now2 →
       users (run (handleDeleteUser (User.id u2)) s3).1
       = filter (λ user, User.id user ≠ User.id u2) (users s)).
Proof.
  intros Hu Hd Hu2 Hd2 s1 s2 s3. subst s1 s2 s3.
  assert (Hset : ∀ s0, (run (setNewUser nu) s0).1
                       = {| activeTab := activeTab s0; users := users s0;
                            templates := templates s0; newUser := nu;
                            newTemplate := newTemplate s0 |})
    by reflexivity.
  rewrite (handleAddUser_accepts now1 s Hu Hd). cbn [fst].
  rewrite Hset. cbn [activeTab users templates newTemplate].
  rewrite handleAddUser_accepts by done.
  cbn [fst users newUser]. rewrite <- app_assoc. cbn [app].
  eexists. eexists. split; [reflexivity|].
  cbn [User.id]. split.
  - intros Hne He. by apply Hne, toString_inj.
  - intros ->. rewrite handleDeleteUser_users.
    cbn [users].
    rewrite (filter_app _ (users s)).
    rewrite !filter_cons_False by (cbn [User.id]; intros Hx; by apply Hx).
    by rewrite filter_nil, app_nil_r.
Qed.

Lemma headcount_users (dept : jsstring) (s : State) :
  headcount dept s
  = length (filter (λ user, User.department user = dept) (users s)).
Proof. reflexivity. Qed.

(** X16: adding a user raises the head count of the department typed
    into the form by one and leaves the head count of every other
    department as it is. *)
Theorem headcount_after_add (now : N) (s : State) (dept : jsstring) :
  NewUser.username (newUser s) ≠ [] →
  NewUser.department (newUser s) ≠ [] →
  headcount dept (run (handleAddUser now) s).1
  = if decide (NewUser.department (newUser s) = dept)
    then S (headcount dept s) else headcount dept s.
Proof.
  intros Hu Hd. rewrite (handleAddUser_accepts now s Hu Hd).
  unfold headcount. cbn [fst users].
  rewrite filter_app, length_app, filter_cons, filter_nil. cbn [User.department].
  destruct (decide (NewUser.department (newUser s) = dept)); simpl; lia.
Qed.

(** X17: when the name or the description of the new template is empty,
    [handleAddTemplate] leaves every cell of the page as it is and shows an
    error; otherwise it appends one template with the given name and
    description, clears the form, keeps the users and the user form, and
    shows no error. *)
Theorem handleAddTemplate_atomic (now : N) (s : State) :
  let nt := newTemplate s in
  let r := run (handleAddTemplate now) s in
  (NewTemplate.name nt = [] ∨ NewTemplate.description nt = [] →
     r = (s, [ToastError (utf16 "请填写完整信息")]))
  ∧ (NewTemplate.name nt ≠ [] → NewTemplate.description nt ≠ [] →
       templates r.1
       = templates s ++ [{| Template.id := toString now;
                            Template.name := NewTemplate.name nt;
                            Template.description :=
                              NewTemplate.description nt |}]
       ∧ users r.1 = users s
       ∧ newUser r.1 = newUser s
       ∧ newTemplate r.1 = {| NewTemplate.name := utf16 "";
                              NewTemplate.description := utf16 "" |}
       ∧ errors r.2 = []).
Proof.
  intros nt r. subst nt r.
  unfold run, handleAddTemplate, mbind, handler_bind, gets.
  destruct (newTemplate s) as [nm ds] eqn:Hnt.
  cbn [NewTemplate.name NewTemplate.description].
  split.
  - intros [-> | ->]; [done|]. by destruct nm.
  - intros Hn Hd. destruct nm as [|? ?]; [done|].
    destruct ds as [|? ?]; [done|]. done.
Qed.

(** X18: deleting the template that was just added, by the id it was
    given, removes it again together with every older template of the same
    id; when no older template has that id the templates are what they
    were before, and the users are never touched. *)
Theorem add_then_delete_template (now : N) (s : State) :
  NewTemplate.name (newTemplate s) ≠ [] →
  NewTemplate.description (newTemplate s) ≠ [] →
  let s1 := (run (handleAddTemplate now) s).1 in
  let r := run (handleDeleteTemplate (toString now)) s1 in
  templates r.1
  = filter (λ t, Template.id t ≠ toString now) (templates s)
  ∧ ((∀ t, t ∈ templates s → Template.id t ≠ toString now) →
     templates r.1 = templates s)
  ∧ users r.1 = users s
  ∧ r.2 = [ToastSuccess (utf16 "模板删除成功")].
Proof.
  intros Hn Hd s1 r. subst s1 r.
  destruct (handleAddTemplate_atomic now s) as [_ Hok].
  destruct (Hok Hn Hd) as (Hts & Hus & _).
  assert (Hdel : ∀ s0, templates (run (handleDeleteTemplate (toString now)) s0).1
            = filter (λ t, Template.id t ≠ toString now) (templates s0))
    by reflexivity.
  rewrite Hdel, Hts.
  rewrite (filter_app _ (templates s)).
  rewrite filter_cons_False by (cbn [Template.id]; intros Hx; by apply Hx).
  rewrite filter_nil, app_nil_r.
  split; [done|]. split; [intros Hno; by apply filter_all|].
  split; [exact Hus|done].
Qed.

End SettingsUsers.

(** ** The minutes page *)

Section Minutes.
Import MinutesPage.

Lemma startsWith_prefix (s p : jsstring) :
  startsWith s p = true ↔ ∃ rest, s = p ++ rest.
Proof.
  revert s. induction p as [|c p IH]; intros s; simpl.
  - split; [intros _; by exists s|]. intros _. by destruct s.
  - destruct s as [|d s].
    + split; [done|]. by intros [rest ?].
    + simpl. rewrite andb_true_iff, N.eqb_eq, IH. split.
      * intros [-> [rest ->]]. by exists rest.
      * intros [rest [= -> ->]]. eauto.
Qed.

(** X19: [handleFileUpload] selects a file exactly when its MIME type
    begins with ['audio/'], leaving the minutes and the processing flag as
    they are; any other file is refused with an error and the earlier
    selection stays. *)
Theorem handleFileUpload_audio_only (s : State) (f : File) :
  let r := run (handleFileUpload (Some f)) s in
  ((∃ rest, type f = utf16 "audio/" ++ rest) →
     selectedFile r.1 = Some f
     ∧ minutes r.1 = minutes s
     ∧ isProcessing r.1 = isProcessing s
     ∧ r.2 = [ToastSuccess (utf16 "音频文件已选择")])
  ∧ (¬ (∃ rest, type f = utf16 "audio/" ++ rest) →
     r = (s, [ToastError (utf16 "请选择音频文件")])).
Proof.
  intros r. subst r. unfold run, handleFileUpload.
  pose proof (startsWith_prefix (type f) (utf16 "audio/")) as Hp.
  destruct (startsWith (type f) (utf16 "audio/")).
  - split; [|intros Hn; exfalso; by apply Hn, Hp]. intros _. done.
  - split; [|done]. intros He. apply Hp in He. discriminate.
Qed.

(** X20: without a selected file [handleTranscribe] shows an error and
    changes nothing; with one, it and its callback store the mock minutes,
    end processing and keep the file selected. *)
Theorem handleTranscribe_needs_file (s : State) :
  (selectedFile s = None →
     settle fire handleTranscribe s
     = (s, [ToastError (utf16 "请先选择音频文件")]))
  ∧ (is_Some (selectedFile s) →
     settle fire handleTranscribe s
     = ({| isProcessing := false; minutes := Some mockMinutes;
           selectedFile := selectedFile s |},
        [SetTimeout TranscribeTimer 3000;
         ToastSuccess (utf16 "会议纪要生成完成！")])).
Proof.
  destruct s as [p m sf]. cbn [selectedFile].
  unfold settle, run, handleTranscribe, mbind, handler_bind, gets.
  split.
  - intros ->. reflexivity.
  - intros [f ->]. reflexivity.
Qed.

Lemma act_keeps_minutes_page r a :
  minutes_page_ok r → minutes_page_ok (act handler fire r a).
Proof.
  destruct r as [s q]. unfold minutes_page_ok. cbn [cells pending].
  intros (Hfile & Hmin & Hproc & Hpend).
  destruct a as [ev|i]; unfold act; cbn [cells pending].
  - destruct ev as [[f|]|]; unfold run, handler, handleFileUpload,
      handleTranscribe, mbind, handler_bind, gets, setSelectedFile,
      setIsProcessing, setTimeout, toast_error, toast_success, emit, modify,
      mret, handler_ret.
    + destruct (startsWith (type f) (utf16 "audio/")) eqn:Hf; cbn.
      * split; [by intros ? [= <-]|]. split; [|split].
        -- intros m Hm. split; [by apply Hmin|by eauto].
        -- intros Hp. by apply grows, Hproc.
        -- by eauto.
      * rewrite app_nil_r. exact (conj Hfile (conj Hmin (conj Hproc Hpend))).
    + cbn. rewrite app_nil_r. exact (conj Hfile (conj Hmin (conj Hproc Hpend))).
    + destruct (selectedFile s) as [f|] eqn:Hs;
        rewrite <- Hs in Hfile, Hmin, Hpend; cbn.
      * split; [exact Hfile|]. split; [exact Hmin|].
        split; [intros _; by destruct q|]. intros _. by rewrite Hs.
      * rewrite app_nil_r. exact (conj Hfile (conj Hmin (conj Hproc Hpend))).
  - destruct (q !! i) as [[]|] eqn:Hi; [|done].
    assert (Hsel : is_Some (selectedFile s)).
    { apply Hpend. intros ->. discriminate Hi. }
    unfold run, fire, handleTranscribe_timeout, mbind, handler_bind,
      setMinutes, setIsProcessing, toast_success, emit, modify; cbn.
    split; [exact Hfile|]. split; [by intros ? [= <-]|].
    split; [done|]. by intros _.
Qed.

(** X21: however the user's actions and the pending callbacks of the
    minutes page interleave, the selected file has a MIME type that begins
    with ['audio/'], minutes only exist with a file selected and are the
    mock minutes, and whenever the page is processing a callback that ends
    it is still pending. *)
Theorem minutes_page_invariants (acts : list (Action Event)) :
  let r := play handler fire acts (start (Timer := Timer) initial) in
  (∀ f, selectedFile (cells r) = Some f →
        ∃ rest, type f = utf16 "audio/" ++ rest)
  ∧ (∀ m, minutes (cells r) = Some m →
          m = mockMinutes ∧ is_Some (selectedFile (cells r)))
  ∧ (isProcessing (cells r) = true → pending r ≠ []).
Proof.
  intros r.
  assert (Hr : minutes_page_ok r).
  { subst r.
    assert (Hstart : minutes_page_ok (start (Timer := Timer) initial)).
    { unfold minutes_page_ok. cbn. done. }
    revert Hstart. generalize (start (Timer := Timer) initial).
    induction acts as [|a acts IH]; intros r Hr; [done|].
    apply IH. by apply act_keeps_minutes_page. }
  destruct Hr as (Hfile & Hmin & Hproc & _).
  split; [|done]. intros f Hf. by apply startsWith_prefix, Hfile.
Qed.
End Minutes.

(** ** The auth provider *)

Section Auth.
Import Supabase AuthContext.

(** X22: [login] signs in the mock organizer under the given username
    whatever the password and whoever was signed in, and ends loading; a
    [logout] whose sign-out returns then clears the user, one whose
    sign-out throws shows an error and leaves the user signed in. *)
Theorem login_then_logout (s : State)
    (username password created updated : jsstring) :
  let r1 := run (login username password created updated) s in
  let mockUser := {| User.id := utf16 "u001";
                     User.username := username;
                     User.role := User.organizer;
                     User.department := utf16 "研发部";
                     User.created_at := created;
                     User.updated_at := updated |} in
  r1 = ({| user := Some mockUser; loading := false |},
        [ToastSuccess (utf16 "登录成功！")])
  ∧ run (logout true) r1.1
    = ({| user := None; loading := false |},
       [ToastSuccess (utf16 "已退出登录")])
  ∧ run (logout false) r1.1
    = (r1.1, [ToastError (utf16 "退出登录失败")]).
Proof. repeat split. Qed.

Lemma loading_after (evs : list Event) (s : State) :
  loading (after evs s)
  = if forallb is_logout evs then loading s else false.
Proof.
  revert s. induction evs as [|ev evs IH]; intros s; [done|].
  unfold after in *. cbn [foldl forallb]. rewrite IH.
  destruct ev as [u p c d|[]|[?|] [?|]|[?|] [?|]]; cbn [is_logout andb];
    try reflexivity; destruct (forallb is_logout evs); reflexivity.
Qed.

(** X23: starting from the initial state of the provider, [loading] is
    still set after a sequence of events exactly when every event of it is
    a [logout]: any login, session check or auth event clears it, and
    nothing sets it again. *)
Theorem loading_until_first_answer (evs : list Event) :
  loading (after evs initial) = forallb is_logout evs.
Proof.
  rewrite loading_after. by destruct (forallb is_logout evs).
Qed.
End Auth.
(** ** The task board: columns *)

Section Board.
Import TasksPage.

(** X24: the badges of the four columns of the board add up to the number
    of tasks whose department is one of the four; no task is in two
    columns, and a task of any other department is in none. *)
Theorem board_shows_known_departments (s : State) :
  foldr plus 0%nat ((λ dept, columnSize dept s) <$> departments)
  = length (filter (λ task, department task ∈ departments) (tasks s))
  ∧ (∀ t d1 d2, t ∈ getTasksByDepartment d1 s →
                t ∈ getTasksByDepartment d2 s → d1 = d2)
  ∧ (∀ t, t ∈ tasks s → department t ∉ departments →
          ∀ d, d ∈ departments → t ∉ getTasksByDepartment d s).
Proof.
  split; [|split].
  - unfold columnSize, getTasksByDepartment, departments.
    cbn [fmap list_fmap foldr].
    induction (tasks s) as [|t l IH]; [done|].
    rewrite !filter_cons.
    destruct (decide (department t ∈ _)) as [Hin|Hout].
    + cbn [length]. rewrite <- IH. clear IH.
      rewrite !elem_of_cons, elem_of_nil in Hin.
      destruct Hin as [He|[He|[He|[He|[]]]]]; rewrite He;
        repeat match goal with
        | |- context [decide (?a = ?b)] =>
          destruct (decide (a = b)) as [Hd|Hd];
          [try (exfalso; revert Hd; vm_compute; discriminate)
          |try (exfalso; by apply Hd)];
          try clear Hd
        end;
        cbn [length]; lia.
    + rewrite <- IH. clear IH.
      rewrite !not_elem_of_cons in Hout.
      destruct Hout as (H1 & H2 & H3 & H4 & _).
      by repeat (case_decide; [done|]).
  - unfold getTasksByDepartment. intros t d1 d2.
    rewrite !list_elem_of_filter. intros [<- _] [<- _]. done.
  - unfold getTasksByDepartment. intros t Hin Hout d Hd.
    rewrite list_elem_of_filter. intros [He _]. apply Hout. by rewrite He.
Qed.
End Board.

(** ** The properties above at sample states *)

Section SampleRuns.

Lemma blank_title_rejected_witness :
  settle BookingPage.fire BookingPage.confirmBooking
         (Sample.revisited Sample.request)
  = (Sample.revisited Sample.request,
     [ToastError (utf16 "请输入会议主题")]).
Proof.
  apply (blank_title_rejected (Sample.revisited Sample.request)).
  vm_compute. reflexivity.
Defined.

Lemma confirmBooking_resets_witness :
  let s := (run (BookingPage.onTitleChange (utf16 "项目复盘会议"))
                (Sample.revisited Sample.request)).1 in
  BookingPage.showBookingModal s = true
  ∧ BookingPage.showBookingModal
      (settle BookingPage.fire BookingPage.confirmBooking s).1 = false
  ∧ BookingPage.recommendations
      (settle BookingPage.fire BookingPage.confirmBooking s).1
    = BookingPage.mockRecommendations.
Proof.
  intros s.
  assert (H : truthy (trim (BookingPage.title (BookingPage.bookingForm s)))
              = true) by (vm_compute; reflexivity).
  rewrite (confirmBooking_resets s H).
  repeat split; vm_compute; reflexivity.
Defined.

Lemma status_change_moves_one_witness :
  let s' := (run (TasksPage.updateTaskStatus (utf16 "2") TasksPage.done)
                 TasksPage.initial).1 in
  TasksPage.countByStatus TasksPage.done s' = 2%nat
  ∧ TasksPage.countByStatus TasksPage.draft s' = 1%nat
  ∧ TasksPage.countByStatus TasksPage.confirmed s' = 2%nat.
Proof.
  intros s'.
  destruct (status_change_moves_one TasksPage.initial 1%nat
              {| TasksPage.id := utf16 "2";
                 TasksPage.description := utf16 "补充测试用例到80%覆盖率";
                 TasksPage.owner := utf16 "李四";
                 TasksPage.department := utf16 "测试部";
                 TasksPage.due_date := utf16 "2025-01-18";
                 TasksPage.status := TasksPage.draft |} TasksPage.done)
    as (Hnew & Hold & Hrest).
  - reflexivity.
  - apply (bool_decide_unpack _). vm_compute. exact I.
  - discriminate.
  - cbn [TasksPage.id TasksPage.status] in Hnew, Hold, Hrest.
    subst s'. split; [rewrite Hnew; vm_compute; reflexivity|].
    split.
    + apply eq_add_S. rewrite Hold. vm_compute. reflexivity.
    + rewrite Hrest by discriminate. vm_compute. reflexivity.
Defined.

Lemma add_then_delete_user_witness :
  SettingsPage.users
    (run (SettingsPage.handleDeleteUser (utf16 "1736930000000"))
         (run (SettingsPage.handleAddUser 1736930000000) Sample.filled).1).1
  = SettingsPage.mockUsers.
Proof.
  destruct (add_then_delete_user 1736930000000 Sample.filled) as [_ Hback].
  - vm_compute. discriminate.
  - vm_compute. discriminate.
  - change (utf16 "1736930000000") with (toString 1736930000000).
    rewrite Hback; [reflexivity|].
    intros u Hin. change (SettingsPage.users Sample.filled)
      with SettingsPage.mockUsers in Hin.
    unfold SettingsPage.mockUsers in Hin.
    repeat (apply elem_of_cons in Hin as [->|Hin];
            [vm_compute; discriminate|]).
    by apply not_elem_of_nil in Hin.
Defined.

Lemma users_added_at_different_times_witness :
  ∃ u1 u2,
    SettingsPage.users
      (run (SettingsPage.handleAddUser 1736930000001)
           (run (SettingsPage.setNewUser
                   {| SettingsPage.NewUser.username := utf16 "孙七";
                      SettingsPage.NewUser.role := SettingsPage.participant;
                      SettingsPage.NewUser.department := utf16 "产品部" |})
                (run (SettingsPage.handleAddUser 1736930000000)
                     Sample.filled).1).1).1
    = SettingsPage.users Sample.filled ++ [u1; u2]
    ∧ SettingsPage.User.id u1 ≠ SettingsPage.User.id u2.
Proof.
  destruct (users_added_at_different_times 1736930000000 1736930000001
              Sample.filled
              {| SettingsPage.NewUser.username := utf16 "孙七";
                 SettingsPage.NewUser.role := SettingsPage.participant;
                 SettingsPage.NewUser.department := utf16 "产品部" |})
    as (u1 & u2 & Hus & Hne & _);
    try (vm_compute; discriminate).
  exists u1, u2. split; [exact Hus|]. apply Hne. discriminate.
Defined.

Lemma headcount_after_add_witness :
  SettingsPage.headcount (utf16 "研发部")
    (run (SettingsPage.handleAddUser 1736930000000) Sample.filled).1
  = 2%nat
  ∧ SettingsPage.headcount (utf16 "测试部")
      (run (SettingsPage.handleAddUser 1736930000000) Sample.filled).1
    = 1%nat.
Proof.
  split.
  - rewrite (headcount_after_add 1736930000000 Sample.filled);
      vm_compute; (reflexivity || discriminate).
  - rewrite (headcount_after_add 1736930000000 Sample.filled);
      vm_compute; (reflexivity || discriminate).
Defined.

Lemma add_then_delete_template_witness :
  let s := (run (SettingsPage.setNewTemplate
                   {| SettingsPage.NewTemplate.name := utf16 "周会模板";
                      SettingsPage.NewTemplate.description :=
                        utf16 "适用于每周例会" |})
                SettingsPage.initial).1 in
  SettingsPage.templates
    (run (SettingsPage.handleDeleteTemplate (toString 1736930000000))
         (run (SettingsPage.handleAddTemplate 1736930000000) s).1).1
  = filter (λ t, SettingsPage.Template.id t ≠ toString 1736930000000)
           SettingsPage.mockTemplates.
Proof.
  intros s.
  destruct (add_then_delete_template 1736930000000 s) as (Hts & _).
  - vm_compute. discriminate.
  - vm_compute. discriminate.
  - exact Hts.
Defined.

End SampleRuns.
